(** * TVB-NEST use case 1: the InterscaleHub and TVB action adapters

    A shallow embedding of
      - action_adapters/interscalehub/interscalehub_adapter.py
      - action_adapters_alphabrunel/tvb_simulator/tvb_adapter.py

    Both scripts are orchestration code: they decode their arguments, call into
    external packages (the InterscaleHub managers, TVB, matplotlib, the
    configuration manager) and talk to the parent process over the standard
    streams.  The embedding keeps the control flow, the Python exceptions the
    scripts themselves can raise, the order of the external calls and the
    contents of the standard streams.

    Conventions.
      - A Python value is a [PyObj]; floats and numpy arrays are not computed
        with: a float is identified by its [repr], an array by a symbolic
        expression.
      - A computation is a function from a [World] to a [Result] and a
        [World]: state passing with exceptions.
      - Every call that leaves the two scripts is appended to the [trace] of
        the world.  Whether such a call raises is decided by the environment
        ([fails]), which sees the calls made so far. *)

From Stdlib Require Import ZArith String Ascii List Lia DecimalString.
From stdpp Require Import base strings gmap.
Import ListNotations.
Open Scope Z_scope.

(** ** Python values *)

Set Warnings "-register-all".

Inductive PyObj : Type :=
| PNone
| PBool (b : bool)
| PInt (z : Z)
| PFloat (repr : string)
| PStr (s : string)
| PList (items : list PyObj)
| PTuple (items : list PyObj)
| PDict (entries : list (string * PyObj))
| PArray (expr : string)
| PInst (cls : string) (ident : nat).

(** [type(o).__name__] *)
Definition type_name (o : PyObj) : string :=
  match o with
  | PNone => "NoneType"
  | PBool _ => "bool"
  | PInt _ => "int"
  | PFloat _ => "float"
  | PStr _ => "str"
  | PList _ => "list"
  | PTuple _ => "tuple"
  | PDict _ => "dict"
  | PArray _ => "ndarray"
  | PInst cls _ => cls
  end.

(** Truth value of an object, as [if o:] tests it. *)
Definition py_truthy (o : PyObj) : bool :=
  match o with
  | PNone => false
  | PBool b => b
  | PInt z => negb (z =? 0)
  | PFloat r => negb (String.eqb r "0.0" || String.eqb r "-0.0")
  | PStr s => negb (String.eqb s EmptyString)
  | PList l | PTuple l => match l with [] => false | _ => true end
  | PDict d => match d with [] => false | _ => true end
  | PArray _ => true
  | PInst _ _ => true
  end.

(** ** Exceptions and results *)

Inductive Exn : Type :=
| ValueError
| TypeError
| IndexError
| KeyError (key : string)
| AttributeError (attr : string)
| NameError (name : string)
| UnboundLocalError (name : string)
| EOFError
| Binascii_Error
| UnpicklingError
| IntegrityError (expected : string)
| ExternalError (what : string)
| SystemExit (code : PyObj).

(** [UnboundLocalError] is a subclass of [NameError]. *)
Definition is_NameError (e : Exn) : bool :=
  match e with
  | NameError _ | UnboundLocalError _ => true
  | _ => false
  end.

Inductive Result (A : Type) : Type :=
| Ok (a : A)
| Raise (e : Exn).
Arguments Ok {A} a.
Arguments Raise {A} e.

(** ** Calls that leave the scripts *)

Inductive Call : Type :=
| CExt (callee : string)
| CGetDirectory (cm : PyObj)
| CSetupResultDirectories (path : string)
| CSleep (seconds : Z)
| CNestToTvbManager (parameters cm log_settings : PyObj) (sci_params : string)
| CTvbToNestManager (parameters cm log_settings : PyObj) (sci_params : string)
| CResourceMonitorAdapter (cm log_settings : PyObj) (pid : Z) (name : string)
| CStartMonitoring
| CStopMonitoring
| CHubStart (hub : PyObj)
| CHubStop (hub : PyObj)
| CParameters (path : string)
| CTVBMpiWrapper (nest_to_tvb tvb_to_nest : PyObj)
| CInitMpi
| CRunSimulation
| CPlot (x y : PyObj)
| CSavefig (file : string)
| CInput.

Definition is_manager_call (c : Call) : bool :=
  match c with
  | CNestToTvbManager _ _ _ _ | CTvbToNestManager _ _ _ _ => true
  | _ => false
  end.

Definition is_hub_start (c : Call) : bool :=
  match c with CHubStart _ => true | _ => false end.

Definition is_hub_stop (c : Call) : bool :=
  match c with CHubStop _ => true | _ => false end.

Definition is_start_monitoring (c : Call) : bool :=
  match c with CStartMonitoring => true | _ => false end.

Definition is_stop_monitoring (c : Call) : bool :=
  match c with CStopMonitoring => true | _ => false end.

Definition is_monitor_call (c : Call) : bool :=
  match c with
  | CResourceMonitorAdapter _ _ _ _ | CStartMonitoring | CStopMonitoring => true
  | _ => false
  end.

Definition is_input (c : Call) : bool :=
  match c with CInput => true | _ => false end.

(** Calls into the simulator or the hub: everything except reading stdin. *)
Definition is_simulator_or_hub_call (c : Call) : bool := negb (is_input c).

(** ** The world and the environment *)

Record World : Type := mkWorld {
  trace : list Call;
  stdin : list string;
  stdout : list string;
  stderr : list string;
  globals : gmap string PyObj }.

(** The object [Parameters(path)] of action_adapters_alphabrunel/parameters.py,
    which is not part of the embedded sources: the three attributes the TVB
    adapter reads. *)
Record Parameters : Type := mkParameters {
  path : string;
  simulation_time : PyObj;
  time_synch : PyObj }.

Record Env : Type := mkEnv {
  (** os.getpid() *)
  getpid : Z;
  (** base64.b64decode; [None] is binascii.Error *)
  b64decode : string -> option string;
  (** pickle.loads; [None] is pickle.UnpicklingError *)
  pickle_loads : string -> option PyObj;
  (** the value of configurations_manager.get_directory(SIMULATION_RESULTS) *)
  simulation_results_dir : string;
  (** the object built by Parameters(path) *)
  new_parameters : string -> Parameters;
  (** the value of TVBMpiWrapper.run_simulation_and_data_exchange() *)
  simulation_result : PyObj;
  (** [fails history c = Some e]: the external call [c], made after the calls
      of [history], raises the exception named [e] *)
  fails : list Call -> Call -> option string }.

(** Every external call returns. *)
Definition returns_normally (env : Env) : Prop :=
  forall history c, fails env history c = None.

Definition initial_world (input : list string) : World :=
  mkWorld [] input [] [] ∅.

(** ** The state and exception monad *)

Definition M (A : Type) : Type := World -> Result A * World.

Definition ret {A} (a : A) : M A := fun w => (Ok a, w).

Definition raise {A} (e : Exn) : M A := fun w => (Raise e, w).

Definition bind {A B} (m : M A) (k : A -> M B) : M B :=
  fun w =>
    match m w with
    | (Ok a, w') => k a w'
    | (Raise e, w') => (Raise e, w')
    end.

Notation "'do' x <- m ; k" := (bind m (fun x => k))
  (at level 10, x name, m at level 100, k at level 200, only parsing).
Notation "'exec' m ; k" := (bind m (fun _ => k))
  (at level 10, m at level 100, k at level 200, only parsing).

Definition lift {A} (r : Result A) : M A := fun w => (r, w).

Definition record_call (c : Call) (w : World) : World :=
  mkWorld (trace w ++ [c]) (stdin w) (stdout w) (stderr w) (globals w).

(** print(line) *)
Definition print_stdout (line : string) : M unit :=
  fun w => (Ok tt, mkWorld (trace w) (stdin w) (stdout w ++ [line]) (stderr w) (globals w)).

(** print(line, file=sys.stderr) *)
Definition print_stderr (line : string) : M unit :=
  fun w => (Ok tt, mkWorld (trace w) (stdin w) (stdout w) (stderr w ++ [line]) (globals w)).

(** input(): one line of stdin, EOFError when there is none. *)
Definition input : M string :=
  fun w =>
    match stdin w with
    | [] => (Raise EOFError, record_call CInput w)
    | line :: rest =>
        (Ok line, mkWorld (trace w ++ [CInput]) rest (stdout w) (stderr w) (globals w))
    end.

(** A module-level assignment [name = v]. *)
Definition set_global (name : string) (v : PyObj) : M unit :=
  fun w => (Ok tt, mkWorld (trace w) (stdin w) (stdout w) (stderr w) (<[name := v]> (globals w))).

(** Reading a name that is not local: the module's globals. *)
Definition get_global (name : string) : M PyObj :=
  fun w =>
    match globals w !! name with
    | Some v => (Ok v, w)
    | None => (Raise (NameError name), w)
    end.

(** sys.exit(code) *)
Definition sys_exit {A} (code : PyObj) : M A := raise (SystemExit code).

(** The exit status of the interpreter for the outcome of the main program:
    0 when it runs to its end, the code of an uncaught SystemExit, and 1 for
    every other uncaught exception. *)
Definition exit_status {A} (r : Result A) : Z :=
  match r with
  | Ok _ => 0
  | Raise (SystemExit PNone) => 0
  | Raise (SystemExit (PInt z)) => z
  | Raise _ => 1
  end.

(** sys.argv[i] *)
Definition argv_get (argv : list string) (i : nat) : Result string :=
  match nth_error argv i with
  | Some s => Ok s
  | None => Raise IndexError
  end.

(** ** Names declared by external packages *)

Module DATA_EXCHANGE_DIRECTION.
(** Modelled from the spec: the enum DATA_EXCHANGE_DIRECTION is declared in
    the external package EBRAINS_InterscaleHUB.  Its members compare equal
    to ints, as the comparison with [int(direction)] in run_wrapper needs,
    and the codes are those of the comment of run_wrapper:
    1 --> nest to Tvb, 2 --> tvb to nest. *)
Definition NEST_TO_TVB : Z := 1.
Definition TVB_TO_NEST : Z := 2.
End DATA_EXCHANGE_DIRECTION.

(** Modelled from the spec: the enum SteeringCommands is declared in the
    external package EBRAINS_RichEndpoint; the glossary of the spec names the
    lifecycle instructions INIT, START and END. *)
Inductive SteeringCommands : Type := INIT | START | END.

Module SteeringCommand.
Definition name (c : SteeringCommands) : string :=
  match c with INIT => "INIT" | START => "START" | END => "END" end.

(** [SteeringCommands[key]]: the member of that name, KeyError otherwise. *)
Definition getitem (key : string) : Result SteeringCommands :=
  if String.eqb key "INIT" then Ok INIT
  else if String.eqb key "START" then Ok START
  else if String.eqb key "END" then Ok END
  else Raise (KeyError key).

Definition eqb (a b : SteeringCommands) : bool :=
  match a, b with
  | INIT, INIT | START, START | END, END => true
  | _, _ => false
  end.

(** [str(member)] *)
Definition str (c : SteeringCommands) : string := "SteeringCommands." +:+ name c.
End SteeringCommand.

(** ** int(direction) *)

Inductive Direction : Type :=
| DStr (s : string)
| DInt (z : Z).

Definition is_py_space (c : ascii) : bool :=
  let n := nat_of_ascii c in
  ((9 <=? n) && (n <=? 13) || (28 <=? n) && (n <=? 32))%nat.

Definition is_digit (c : ascii) : bool :=
  let n := nat_of_ascii c in ((48 <=? n) && (n <=? 57))%nat.

Definition digit_value (c : ascii) : Z := Z.of_nat (nat_of_ascii c) - 48.

Fixpoint lstrip (cs : list ascii) : list ascii :=
  match cs with
  | c :: rest => if is_py_space c then lstrip rest else cs
  | [] => []
  end.

Definition strip (cs : list ascii) : list ascii := rev (lstrip (rev (lstrip cs))).

(** Decimal digits, with single underscores between digits. *)
Fixpoint int_digits (cs : list ascii) (acc : Z) (after_digit : bool) : option Z :=
  match cs with
  | [] => if after_digit then Some acc else None
  | c :: rest =>
      if is_digit c then int_digits rest (10 * acc + digit_value c) true
      else if Ascii.eqb c "_"%char
           then (if after_digit then int_digits rest acc false else None)
           else None
  end.

(** int(s) for a str in base 10: surrounding whitespace, an optional sign,
    digits; ValueError otherwise. *)
Definition int_of_str (s : string) : Result Z :=
  let parsed :=
    match strip (list_ascii_of_string s) with
    | "+"%char :: rest => int_digits rest 0 false
    | "-"%char :: rest => option_map Z.opp (int_digits rest 0 false)
    | cs => int_digits cs 0 false
    end in
  match parsed with
  | Some z => Ok z
  | None => Raise ValueError
  end.

Definition py_int (direction : Direction) : Result Z :=
  match direction with
  | DStr s => int_of_str s
  | DInt z => Ok z
  end.

(** ** Operations on values *)

(** [o.get(key)] *)
Definition py_get (o : PyObj) (key : string) : Result PyObj :=
  match o with
  | PDict entries =>
      match List.find (fun kv => String.eqb (fst kv) key) entries with
      | Some kv => Ok (snd kv)
      | None => Ok PNone
      end
  | _ => Raise (AttributeError "get")
  end.

(** [o == s] for a str [s] *)
Definition py_eq_str (o : PyObj) (s : string) : bool :=
  match o with
  | PStr t => String.eqb t s
  | _ => false
  end.

Definition chars_of (s : string) : list PyObj :=
  List.map (fun c => PStr (String c EmptyString)) (list_ascii_of_string s).

(** The items [for x in o] visits; the shape of an array is not part of the
    model, so an array is not iterated. *)
Definition py_iter (o : PyObj) : Result (list PyObj) :=
  match o with
  | PList items | PTuple items => Ok items
  | PDict entries => Ok (List.map (fun kv => PStr (fst kv)) entries)
  | PStr s => Ok (chars_of s)
  | _ => Raise TypeError
  end.

(** [(x,) = o] *)
Definition py_unpack1 (o : PyObj) : Result PyObj :=
  match py_iter o with
  | Ok [x] => Ok x
  | Ok _ => Raise ValueError
  | Raise e => Raise e
  end.

Definition index_items (items : list PyObj) (i : Z) : Result PyObj :=
  let n := Z.of_nat (List.length items) in
  let j := if i <? 0 then i + n else i in
  if (j <? 0) || (n <=? j) then Raise IndexError
  else match nth_error items (Z.to_nat j) with
       | Some x => Ok x
       | None => Raise IndexError
       end.

(** [o[i]] for an int [i] *)
Definition py_getitem (o : PyObj) (i : Z) : Result PyObj :=
  match o with
  | PList items | PTuple items => index_items items i
  | PStr s => index_items (chars_of s) i
  | PDict _ => Raise (KeyError (NilZero.string_of_int (Z.to_int i)))
  | PArray e => Ok (PArray (e +:+ "[" +:+ NilZero.string_of_int (Z.to_int i) +:+ "]"))
  | _ => Raise TypeError
  end.

(** [o[:, 0, :, 0] + 3.0]: defined on arrays *)
Definition np_slice_plus (o : PyObj) : Result PyObj :=
  match o with
  | PArray e => Ok (PArray (e +:+ "[:, 0, :, 0] + 3.0"))
  | _ => Raise TypeError
  end.

Fixpoint join (sep : string) (parts : list string) : string :=
  match parts with
  | [] => EmptyString
  | [x] => x
  | x :: rest => x +:+ sep +:+ join sep rest
  end.

(** repr(o).  A str is quoted with single quotes, which is its repr when it
    has no quote, backslash or control character. *)
Fixpoint py_repr (o : PyObj) : string :=
  match o with
  | PNone => "None"
  | PBool true => "True"
  | PBool false => "False"
  | PInt z => NilZero.string_of_int (Z.to_int z)
  | PFloat r => r
  | PStr s => "'" +:+ s +:+ "'"
  | PList items => "[" +:+ join ", " (List.map py_repr items) +:+ "]"
  | PTuple [x] => "(" +:+ py_repr x +:+ ",)"
  | PTuple items => "(" +:+ join ", " (List.map py_repr items) +:+ ")"
  | PDict entries =>
      "{" +:+ join ", " (List.map (fun kv => "'" +:+ fst kv +:+ "': " +:+ py_repr (snd kv))
                           entries) +:+ "}"
  | PArray e => "array(" +:+ e +:+ ")"
  | PInst cls _ => "<" +:+ cls +:+ " object>"
  end.

(** str(o), for the objects whose str is their repr. *)
Definition py_str (o : PyObj) : string :=
  match o with
  | PStr s => s
  | _ => py_repr o
  end.

(** ** Helpers shared by the two scripts *)

(** Modelled from the spec: common/utils/security_utils.py is not among the
    embedded sources.  The spec: "A single check_integrity call rejects
    unpickled objects that do not match an expected type"; the call sites:
    "it raises an exception, if the integrity is compromised". *)
Definition check_integrity (pickled_object : PyObj) (expected_type : string) : Result unit :=
  if String.eqb (type_name pickled_object) expected_type
  then Ok tt
  else Raise (IntegrityError expected_type).

(** The dictionary [parameters] of run_wrapper. *)
Definition hub_parameters (path : string) : PyObj :=
  PDict [("path", PStr path);
         ("id_nest_region", PList [PInt 0]);
         ("id_first_neurons", PList [PInt 1]);
         ("width", PFloat "20.0");
         ("id_first_spike_detector", PInt 229)].

(** The local variables [hub] and [name] of run_wrapper: bound together, or
    not at all. *)
Definition HubLocals : Type := option (PyObj * string).

Definition local_hub (locals : HubLocals) : Result PyObj :=
  match locals with
  | Some (hub, _) => Ok hub
  | None => Raise (UnboundLocalError "hub")
  end.

Definition local_name (locals : HubLocals) : Result string :=
  match locals with
  | Some (_, name) => Ok name
  | None => Raise (UnboundLocalError "name")
  end.

Section Program.

Variable env : Env.

(** An external call: recorded, and raising when the environment says so. *)
Definition call (c : Call) : M unit :=
  fun w =>
    match fails env (trace w) c with
    | Some e => (Raise (ExternalError e), record_call c w)
    | None => (Ok tt, record_call c w)
    end.

(** pickle.loads(base64.b64decode(arg)) *)
Definition loads_b64 (arg : string) : Result PyObj :=
  match b64decode env arg with
  | None => Raise Binascii_Error
  | Some bytes =>
      match pickle_loads env bytes with
      | None => Raise UnpicklingError
      | Some o => Ok o
      end
  end.

(** ** interscalehub_adapter.py *)

(** run_wrapper, lines 42 to 83: the path, the parameters, int(direction) and
    the choice of the manager. *)
Definition run_wrapper_select (direction : Direction)
    (configurations_manager log_settings : PyObj)
    (sci_params_xml_path_filename : string) : M HubLocals :=
  exec call (CGetDirectory configurations_manager);
  let path := simulation_results_dir env in
  let parameters := hub_parameters path in
  do direction <- lift (py_int direction);
  if direction =? DATA_EXCHANGE_DIRECTION.NEST_TO_TVB then
    exec call (CSetupResultDirectories path);
    exec call (CNestToTvbManager parameters configurations_manager log_settings
                 sci_params_xml_path_filename);
    ret (Some (PInst "NestToTvbManager" 0, "NEST_TO_TVB"))
  else if direction =? DATA_EXCHANGE_DIRECTION.TVB_TO_NEST then
    exec call (CSleep 1);
    exec call (CTvbToNestManager parameters configurations_manager log_settings
                 sci_params_xml_path_filename);
    ret (Some (PInst "TvbToNestManager" 0, "TVB_TO_NEST"))
  else ret None.

(** run_wrapper, lines 91 to 105: monitoring, hub.start(), hub.stop(). *)
Definition run_wrapper_start_stop (locals : HubLocals)
    (configurations_manager log_settings : PyObj)
    (is_monitoring_enabled : bool) : M PyObj :=
  exec (if is_monitoring_enabled then
          do name <- lift (local_name locals);
          exec call (CResourceMonitorAdapter configurations_manager log_settings
                       (getpid env) ("InterscaleHub_" +:+ name));
          call CStartMonitoring
        else ret tt);
  do hub <- lift (local_hub locals);
  exec call (CHubStart hub);
  exec call (CHubStop hub);
  exec (if is_monitoring_enabled then call CStopMonitoring else ret tt);
  ret PNone.

Definition run_wrapper (direction : Direction)
    (configurations_manager log_settings : PyObj)
    (is_monitoring_enabled : bool)
    (sci_params_xml_path_filename : string) : M PyObj :=
  do locals <- run_wrapper_select direction configurations_manager log_settings
                 sci_params_xml_path_filename;
  run_wrapper_start_stop locals configurations_manager log_settings
    is_monitoring_enabled.

(** The main program, lines 107 to 127. *)
Definition interscalehub_main (argv : list string) : M unit :=
  do direction <- lift (argv_get argv 1);
  exec set_global "direction" (PStr direction);
  do arg2 <- lift (argv_get argv 2);
  do configurations_manager <- lift (loads_b64 arg2);
  exec set_global "configurations_manager" configurations_manager;
  do arg3 <- lift (argv_get argv 3);
  do log_settings <- lift (loads_b64 arg3);
  exec set_global "log_settings" log_settings;
  do p_sci_params_xml_path_filename <- lift (argv_get argv 4);
  exec set_global "p_sci_params_xml_path_filename" (PStr p_sci_params_xml_path_filename);
  do arg5 <- lift (argv_get argv 5);
  do is_monitoring_enabled <- lift (loads_b64 arg5);
  exec set_global "is_monitoring_enabled" is_monitoring_enabled;
  exec lift (check_integrity configurations_manager "ConfigurationsManager");
  exec lift (check_integrity log_settings "dict");
  exec lift (check_integrity is_monitoring_enabled "bool");
  do status <- run_wrapper (DStr direction) configurations_manager log_settings
                 (py_truthy is_monitoring_enabled) p_sci_params_xml_path_filename;
  sys_exit status.

(** ** tvb_adapter.py *)

(** The attributes of a TVBAdapter object.  The two addresses are set by
    __init_port_names only when a matching endpoint is found: [None] is an
    attribute that does not exist. *)
Record TVBAdapter : Type := mkTVBAdapter {
  _log_settings : PyObj;
  _configurations_manager : PyObj;
  __path_to_parameters_file : string;
  __parameters : Parameters;
  __simulator_tvb : PyObj;
  __tvb_mpi_wrapper : PyObj;
  __interscalehub_nest_to_tvb_address : option PyObj;
  __interscalehub_tvb_to_nest_address : option PyObj }.

Definition set_nest_to_tvb_address (self : TVBAdapter) (v : PyObj) : TVBAdapter :=
  mkTVBAdapter (_log_settings self) (_configurations_manager self)
    (__path_to_parameters_file self) (__parameters self) (__simulator_tvb self)
    (__tvb_mpi_wrapper self) (Some v) (__interscalehub_tvb_to_nest_address self).

Definition set_tvb_to_nest_address (self : TVBAdapter) (v : PyObj) : TVBAdapter :=
  mkTVBAdapter (_log_settings self) (_configurations_manager self)
    (__path_to_parameters_file self) (__parameters self) (__simulator_tvb self)
    (__tvb_mpi_wrapper self) (__interscalehub_nest_to_tvb_address self) (Some v).

Definition set_simulator_and_wrapper (self : TVBAdapter) (sim wrapper : PyObj) : TVBAdapter :=
  mkTVBAdapter (_log_settings self) (_configurations_manager self)
    (__path_to_parameters_file self) (__parameters self) sim wrapper
    (__interscalehub_nest_to_tvb_address self) (__interscalehub_tvb_to_nest_address self).

(** One round of the loop of __init_port_names, lines 71 to 82. *)
Definition init_port_name (self : TVBAdapter) (interscalehub : PyObj) : M TVBAdapter :=
  exec call (CExt "logger.debug");
  do direction <- lift (py_get interscalehub "DATA_EXCHANGE_DIRECTION");
  if py_eq_str direction "NEST_TO_TVB" then
    do address <- lift (py_get interscalehub "MPI_CONNECTION_INFO");
    exec call (CExt "logger.debug");
    ret (set_nest_to_tvb_address self address)
  else
    do direction <- lift (py_get interscalehub "DATA_EXCHANGE_DIRECTION");
    if py_eq_str direction "TVB_TO_NEST" then
      do address <- lift (py_get interscalehub "MPI_CONNECTION_INFO");
      exec call (CExt "logger.debug");
      ret (set_tvb_to_nest_address self address)
    else ret self.

Fixpoint init_port_names_loop (self : TVBAdapter) (addresses : list PyObj) : M TVBAdapter :=
  match addresses with
  | [] => ret self
  | interscalehub :: rest =>
      do self <- init_port_name self interscalehub;
      init_port_names_loop self rest
  end.

(** __init_port_names, lines 63 to 82. *)
Definition init_port_names (self : TVBAdapter) (interscalehub_addresses : PyObj) : M TVBAdapter :=
  exec call (CExt "logger.debug");
  do addresses <- lift (py_iter interscalehub_addresses);
  init_port_names_loop self addresses.

(** TVBAdapter.__init__, lines 42 to 61. *)
Definition TVBAdapter_init (p_configurations_manager p_log_settings
    p_interscalehub_addresses : PyObj) (p_sci_params_xml_path_filename : string)
    : M TVBAdapter :=
  exec call (CExt "configurations_manager.load_log_configurations");
  exec call (CGetDirectory p_configurations_manager);
  let path_to_parameters_file := simulation_results_dir env in
  exec call (CExt "Xml2ClassParser");
  exec call (CParameters path_to_parameters_file);
  let self := mkTVBAdapter p_log_settings p_configurations_manager
                path_to_parameters_file (new_parameters env path_to_parameters_file)
                PNone PNone None None in
  do self <- init_port_names self p_interscalehub_addresses;
  exec call (CExt "logger.info");
  ret self.

(** __configure, lines 85 to 126. *)
Definition configure : M PyObj :=
  exec call (CExt "lab.models.Generic2dOscillator");
  exec call (CExt "lab.connectivity.Connectivity.from_file");
  exec call (CExt "sci_params.white_matter_speed");
  exec call (CExt "sci_params.lab_coupling_linear_a");
  exec call (CExt "lab.coupling.Linear");
  exec call (CExt "sci_params.heun_deterministic_dt");
  exec call (CExt "lab.integrators.HeunDeterministic");
  exec call (CExt "lab.monitors.Raw");
  exec call (CExt "numpy.array");
  exec call (CExt "sci_params.synchronization_time");
  exec call (CExt "CosimCoupling");
  exec call (CExt "sci_params.proxy_inds");
  exec call (CExt "CoSimulator");
  exec call (CExt "simulator.configure");
  exec call (CExt "logger.info");
  ret (PInst "CoSimulator" 0).

Definition read_attribute (name : string) (slot : option PyObj) : Result PyObj :=
  match slot with
  | Some v => Ok v
  | None => Raise (AttributeError name)
  end.

(** execute_init_command, lines 128 to 141. *)
Definition execute_init_command (self : TVBAdapter) : M (TVBAdapter * PyObj) :=
  exec call (CExt "logger.debug");
  do simulator <- configure;
  exec call (CExt "simulator.simulation_length");
  do nest_to_tvb <- lift (read_attribute "_TVBAdapter__interscalehub_nest_to_tvb_address"
                            (__interscalehub_nest_to_tvb_address self));
  do tvb_to_nest <- lift (read_attribute "_TVBAdapter__interscalehub_tvb_to_nest_address"
                            (__interscalehub_tvb_to_nest_address self));
  exec call (CTVBMpiWrapper nest_to_tvb tvb_to_nest);
  let self := set_simulator_and_wrapper self simulator (PInst "TVBMpiWrapper" 0) in
  exec call CInitMpi;
  exec call (CExt "logger.debug");
  ret (self, time_synch (__parameters self)).

(** execute_start_command, lines 143 to 147. *)
Definition execute_start_command (self : TVBAdapter) : M PyObj :=
  exec call (CExt "logger.debug");
  exec lift (match __tvb_mpi_wrapper self with
             | PNone => Raise (AttributeError "run_simulation_and_data_exchange")
             | _ => Ok tt
             end);
  exec call CRunSimulation;
  do r_raw_results <- lift (py_unpack1 (simulation_result env));
  exec call (CExt "logger.debug");
  ret r_raw_results.

(** execute_end_command, lines 149 to 155.  The second argument of plt.plot
    reads the name [raw_results], which is not a local of the method. *)
Definition execute_end_command (self : TVBAdapter) (p_raw_results : PyObj) : M PyObj :=
  exec call (CExt "logger.info");
  exec call (CExt "plt.figure");
  do x <- lift (py_getitem p_raw_results 0);
  do raw_results <- get_global "raw_results";
  do data <- lift (py_getitem raw_results 1);
  do y <- lift (np_slice_plus data);
  exec call (CPlot x y);
  exec call (CExt "plt.title");
  exec call (CSavefig (path (__parameters self) +:+ "/figures/plot_tvb.png"));
  exec call (CExt "logger.debug");
  ret PNone.

(** The main program up to the report to the parent, lines 158 to 188. *)
Definition tvb_main_init (argv : list string) : M TVBAdapter :=
  do arg1 <- lift (argv_get argv 1);
  do configurations_manager <- lift (loads_b64 arg1);
  exec set_global "configurations_manager" configurations_manager;
  do arg2 <- lift (argv_get argv 2);
  do log_settings <- lift (loads_b64 arg2);
  exec set_global "log_settings" log_settings;
  do p_sci_params_xml_path_filename <- lift (argv_get argv 3);
  exec set_global "p_sci_params_xml_path_filename" (PStr p_sci_params_xml_path_filename);
  do arg4 <- lift (argv_get argv 4);
  do p_interscalehub_address <- lift (loads_b64 arg4);
  exec set_global "p_interscalehub_address" p_interscalehub_address;
  exec lift (check_integrity configurations_manager "ConfigurationsManager");
  exec lift (check_integrity log_settings "dict");
  exec lift (check_integrity p_interscalehub_address "list");
  do tvb_adapter <- TVBAdapter_init configurations_manager log_settings
                      p_interscalehub_address p_sci_params_xml_path_filename;
  exec set_global "tvb_adapter" (PInst "TVBAdapter" 0);
  do initialised <- execute_init_command tvb_adapter;
  let tvb_adapter := fst initialised in
  let local_minimum_step_size := snd initialised in
  exec set_global "local_minimum_step_size" local_minimum_step_size;
  let pid_and_local_minimum_step_size :=
    PDict [("PID", PInt (getpid env));
           ("LOCAL_MINIMUM_STEP_SIZE", local_minimum_step_size)] in
  exec set_global "pid_and_local_minimum_step_size" pid_and_local_minimum_step_size;
  exec print_stdout (py_str pid_and_local_minimum_step_size);
  ret tvb_adapter.

(** The steering phase of the main program, lines 190 to 203. *)
Definition tvb_main_steering (tvb_adapter : TVBAdapter) : M unit :=
  do user_action_command <- input;
  exec set_global "user_action_command" (PStr user_action_command);
  do command <- lift (SteeringCommand.getitem user_action_command);
  if SteeringCommand.eqb command START then
    do raw_results <- execute_start_command tvb_adapter;
    exec set_global "raw_results" raw_results;
    exec execute_end_command tvb_adapter raw_results;
    sys_exit (PInt 0)
  else
    do command <- lift (SteeringCommand.getitem user_action_command);
    exec print_stderr ("unknown steering command: " +:+ SteeringCommand.str command);
    sys_exit (PInt 1).

Definition tvb_main (argv : list string) : M unit :=
  do tvb_adapter <- tvb_main_init argv;
  tvb_main_steering tvb_adapter.

End Program.

(** ** A concrete environment *)

Module Demo.

(** Five argument strings and the bytes they decode to. *)
Definition b64decode (arg : string) : option string :=
  if String.eqb arg "Y20=" then Some "cm"
  else if String.eqb arg "bHM=" then Some "ls"
  else if String.eqb arg "b24=" then Some "on"
  else if String.eqb arg "b2Zm" then Some "off"
  else if String.eqb arg "aHVicw==" then Some "hubs"
  else None.

Definition cm : PyObj := PInst "ConfigurationsManager" 1.

Definition log_settings : PyObj := PDict [("version", PInt 1)].

Definition hubs : PyObj :=
  PList [PDict [("DATA_EXCHANGE_DIRECTION", PStr "NEST_TO_TVB");
                ("MPI_CONNECTION_INFO", PStr "port-a")];
         PDict [("DATA_EXCHANGE_DIRECTION", PStr "TVB_TO_NEST");
                ("MPI_CONNECTION_INFO", PStr "port-b")]].

(** The objects the decoded bytes stand for. *)
Definition pickle_loads (bytes : string) : option PyObj :=
  if String.eqb bytes "cm" then Some cm
  else if String.eqb bytes "ls" then Some log_settings
  else if String.eqb bytes "on" then Some (PBool true)
  else if String.eqb bytes "off" then Some (PBool false)
  else if String.eqb bytes "hubs" then Some hubs
  else None.

Definition parameters (path : string) : Parameters :=
  mkParameters path (PFloat "1000.0") (PFloat "1.2").

Definition raw : PyObj := PList [PArray "time"; PArray "data"].

Definition env : Env :=
  mkEnv 4242 b64decode pickle_loads "/results" parameters (PTuple [raw])
    (fun _ _ => None).

(** The same environment, with an external call that raises. *)
Definition env_failing (broken : Call -> bool) : Env :=
  mkEnv 4242 b64decode pickle_loads "/results" parameters (PTuple [raw])
    (fun _ c => if broken c then Some "RuntimeError" else None).

Definition hub_argv (direction flag : string) : list string :=
  ["interscalehub_adapter.py"; direction; "Y20="; "bHM="; "params.xml"; flag].

Definition tvb_argv : list string :=
  ["tvb_adapter.py"; "Y20="; "bHM="; "params.xml"; "aHVicw=="].

Definition adapter : TVBAdapter :=
  mkTVBAdapter log_settings cm "/results" (parameters "/results") PNone PNone None None.

End Demo.

(** ** Vocabulary of the statements *)

(** The calls made between two worlds of one run. *)
Definition new_calls (w w' : World) : list Call :=
  skipn (List.length (trace w)) (trace w').

(** How often input() was called. *)
Definition inputs (w : World) : nat :=
  List.length (List.filter is_input (trace w)).

(** No call satisfying [later] comes before the first call satisfying
    [earlier]. *)
Fixpoint preceded_by (earlier later : Call -> bool) (calls : list Call) : bool :=
  match calls with
  | [] => true
  | c :: rest =>
      if earlier c then true
      else if later c then false
      else preceded_by earlier later rest
  end.

(** Exceptions other than SystemExit. *)
Definition ordinary (e : Exn) : Prop :=
  match e with
  | SystemExit _ => False
  | _ => True
  end.

(** The world changes only by calls into the simulator or the hub and by
    assignments to globals. *)
Definition quiet (w w' : World) : Prop :=
  stdin w' = stdin w /\ stdout w' = stdout w /\ stderr w' = stderr w /\
  exists calls, trace w' = trace w ++ calls /\ List.forallb is_simulator_or_hub_call calls = true.

(** The trace only grows. *)
Definition extends (w w' : World) : Prop :=
  exists calls, trace w' = trace w ++ calls.

(** [m] relates the worlds before and after it by [R] and raises only
    exceptions in [E]. *)
Definition spec {A} (R : World -> World -> Prop) (E : Exn -> Prop) (m : M A) : Prop :=
  forall w r w', m w = (r, w') -> R w w' /\ forall e, r = Raise e -> E e.

(** Module-level assignments, in order. *)
Definition assign_globals (bindings : list (string * PyObj)) (w : World) : World :=
  mkWorld (trace w) (stdin w) (stdout w) (stderr w)
    (fold_left (fun g kv => <[fst kv := snd kv]> g) bindings (globals w)).

(** The line the TVB adapter reports to its parent. *)
Definition report_line (pid : Z) (step : PyObj) : string :=
  "{'PID': " +:+ NilZero.string_of_int (Z.to_int pid) +:+
  ", 'LOCAL_MINIMUM_STEP_SIZE': " +:+ py_repr step +:+ "}".

(** [m], when it returns, returns a value in [P]. *)
Definition returns {A} (P : A -> Prop) (m : M A) : Prop :=
  forall w a w', m w = (Ok a, w') -> P a.

(** The main program of interscalehub_adapter.py as the specification words
    it: argv positions 2 to 5 all carry base64-encoded pickled blobs, the
    science-parameter file path among them, and each blob is base64-decoded
    and unpickled.  Only the treatment of argv[4] differs from
    [interscalehub_main]. *)
Definition interscalehub_main_as_specified (env : Env) (argv : list string) : M unit :=
  do direction <- lift (argv_get argv 1);
  exec set_global "direction" (PStr direction);
  do arg2 <- lift (argv_get argv 2);
  do configurations_manager <- lift (loads_b64 env arg2);
  exec set_global "configurations_manager" configurations_manager;
  do arg3 <- lift (argv_get argv 3);
  do log_settings <- lift (loads_b64 env arg3);
  exec set_global "log_settings" log_settings;
  do arg4 <- lift (argv_get argv 4);
  do p_sci_params_xml_path_filename <- lift (loads_b64 env arg4);
  exec set_global "p_sci_params_xml_path_filename" p_sci_params_xml_path_filename;
  do arg5 <- lift (argv_get argv 5);
  do is_monitoring_enabled <- lift (loads_b64 env arg5);
  exec set_global "is_monitoring_enabled" is_monitoring_enabled;
  exec lift (check_integrity configurations_manager "ConfigurationsManager");
  exec lift (check_integrity log_settings "dict");
  exec lift (check_integrity is_monitoring_enabled "bool");
  do status <- run_wrapper env (DStr direction) configurations_manager log_settings
                 (py_truthy is_monitoring_enabled) (py_str p_sci_params_xml_path_filename);
  sys_exit status.

(** ** Vocabulary of the further properties *)

(** The world after the calls [calls], made in order. *)
Definition record_calls (calls : list Call) (w : World) : World :=
  fold_left (fun w c => record_call c w) calls w.

(** [hub.get("DATA_EXCHANGE_DIRECTION") == direction], for an endpoint that
    has a get method. *)
Definition has_direction (hub : PyObj) (direction : string) : bool :=
  match py_get hub "DATA_EXCHANGE_DIRECTION" with
  | Ok d => py_eq_str d direction
  | Raise _ => false
  end.

(** Objects with a get method: the dictionaries. *)
Definition is_dict (o : PyObj) : bool :=
  match o with PDict _ => true | _ => false end.

(** The calls of __configure, lines 98 to 125, in order. *)
Definition configure_calls : list Call :=
  [CExt "lab.models.Generic2dOscillator"; CExt "lab.connectivity.Connectivity.from_file";
   CExt "sci_params.white_matter_speed"; CExt "sci_params.lab_coupling_linear_a";
   CExt "lab.coupling.Linear"; CExt "sci_params.heun_deterministic_dt";
   CExt "lab.integrators.HeunDeterministic"; CExt "lab.monitors.Raw";
   CExt "numpy.array"; CExt "sci_params.synchronization_time"; CExt "CosimCoupling";
   CExt "sci_params.proxy_inds"; CExt "CoSimulator"; CExt "simulator.configure";
   CExt "logger.info"].

(** The two calls run_wrapper makes before it constructs a manager: line 62
    and line 74. *)
Definition is_setup_or_sleep (c : Call) : bool :=
  match c with
  | CSetupResultDirectories _ | CSleep _ => true
  | _ => false
  end.

(** ** Further concrete inputs *)

Module Scenario.

Definition hub (direction port : string) : PyObj :=
  PDict [("DATA_EXCHANGE_DIRECTION", PStr direction); ("MPI_CONNECTION_INFO", PStr port)].

(** Two endpoints of one direction; none of the other. *)
Definition nest_only : list PyObj :=
  [hub "NEST_TO_TVB" "port-a"; hub "NEST_TO_TVB" "port-c"].

Definition pickle_loads (bytes : string) : option PyObj :=
  if String.eqb bytes "hubs" then Some (PList nest_only) else Demo.pickle_loads bytes.

(** The environment of [Demo.env], with the endpoint list [nest_only]. *)
Definition env : Env :=
  mkEnv 4242 Demo.b64decode pickle_loads "/results" Demo.parameters (PTuple [Demo.raw])
    (fun _ _ => None).

(** An adapter after a successful INIT. *)
Definition connected : TVBAdapter :=
  mkTVBAdapter Demo.log_settings Demo.cm "/results" (Demo.parameters "/results")
    (PInst "CoSimulator" 0) (PInst "TVBMpiWrapper" 0)
    (Some (PStr "port-a")) (Some (PStr "port-b")).

End Scenario.

(** * Properties *)

(** ** The monad *)

Lemma new_calls_app (w w' : World) (calls : list Call) :
  trace w' = trace w ++ calls -> new_calls w w' = calls.
Proof.
  intros H. unfold new_calls. rewrite H. apply drop_app_length.
Qed.

Lemma new_calls_same (w : World) : new_calls w w = [].
Proof. apply new_calls_app. now rewrite app_nil_r. Qed.

Lemma call_returns (env : Env) (c : Call) (w : World) :
  returns_normally env -> call env c w = (Ok tt, record_call c w).
Proof. intros H. unfold call. now rewrite H. Qed.

Lemma call_cases (env : Env) (c : Call) (w : World) :
  call env c w = (Ok tt, record_call c w) \/
  exists e, call env c w = (Raise (ExternalError e), record_call c w).
Proof. unfold call. destruct (fails env (trace w) c); eauto. Qed.

#[global] Instance quiet_preorder : PreOrder quiet.
Proof.
  split.
  - intros w. repeat split; try reflexivity. exists []. now rewrite app_nil_r.
  - intros a b c (I1 & O1 & E1 & l1 & T1 & F1) (I2 & O2 & E2 & l2 & T2 & F2).
    repeat split; try congruence.
    exists (l1 ++ l2). split.
    + rewrite T2, T1. now rewrite app_assoc.
    + rewrite forallb_app, F1, F2. reflexivity.
Qed.

#[global] Instance extends_preorder : PreOrder extends.
Proof.
  split.
  - intros w. exists []. now rewrite app_nil_r.
  - intros a b c [l1 T1] [l2 T2]. exists (l1 ++ l2).
    rewrite T2, T1. now rewrite app_assoc.
Qed.

Lemma quiet_extends (w w' : World) : quiet w w' -> extends w w'.
Proof. intros (_ & _ & _ & l & T & _). now exists l. Qed.

Lemma quiet_inputs (w w' : World) : quiet w w' -> inputs w' = inputs w.
Proof.
  intros (_ & _ & _ & l & T & F). unfold inputs. rewrite T, List.filter_app, length_app.
  assert (List.filter is_input l = []) as ->; [|simpl; lia].
  clear T. induction l as [|c l IH]; [reflexivity|].
  simpl in F. apply andb_prop in F as [Fc Fl]. simpl.
  unfold is_simulator_or_hub_call in Fc. destruct (is_input c); [discriminate|auto].
Qed.

Section Spec.

Context (R : World -> World -> Prop) `{!PreOrder R} (E : Exn -> Prop).

Lemma spec_ret {A} (a : A) : spec R E (ret a).
Proof. intros w r w' [= <- <-]. split; [reflexivity|discriminate]. Qed.

Lemma spec_raise {A} (e : Exn) : E e -> spec R E (@raise A e).
Proof. intros He w r w' [= <- <-]. split; [reflexivity|]. now intros ? [= <-]. Qed.

Lemma spec_lift {A} (r : Result A) : (forall e, r = Raise e -> E e) -> spec R E (lift r).
Proof. intros He w r' w' [= <- <-]. split; [reflexivity|assumption]. Qed.

Lemma spec_bind {A B} (m : M A) (k : A -> M B) :
  spec R E m -> (forall a, spec R E (k a)) -> spec R E (bind m k).
Proof.
  intros Hm Hk w r w' H. unfold bind in H.
  destruct (m w) as [[a|e] w1] eqn:Em.
  - destruct (Hm _ _ _ Em) as [R1 _]. destruct (Hk a _ _ _ H) as [R2 E2].
    split; [now transitivity w1|assumption].
  - injection H as <- <-. destruct (Hm _ _ _ Em) as [R1 E1].
    split; [assumption|]. intros e' [= <-]. now apply E1.
Qed.

Lemma spec_call (env : Env) (c : Call) :
  (forall w, R w (record_call c w)) -> (forall what, E (ExternalError what)) ->
  spec R E (call env c).
Proof.
  intros HR HE w r w' H.
  destruct (call_cases env c w) as [H1|[e H1]]; rewrite H1 in H; injection H as <- <-.
  - split; [apply HR|discriminate].
  - split; [apply HR|]. intros ? [= <-]. apply HE.
Qed.

Lemma spec_set_global (name : string) (v : PyObj) :
  (forall w, R w (assign_globals [(name, v)] w)) -> spec R E (set_global name v).
Proof. intros HR w r w' [= <- <-]. split; [apply HR|discriminate]. Qed.

End Spec.

Lemma spec_weaken {A} (R R' : World -> World -> Prop) (E E' : Exn -> Prop) (m : M A) :
  (forall w w', R w w' -> R' w w') -> (forall e, E e -> E' e) ->
  spec R E m -> spec R' E' m.
Proof.
  intros HR HE Hm w r w' H. destruct (Hm _ _ _ H) as [H1 H2]. split; auto.
Qed.

Lemma quiet_record_call (c : Call) (w : World) :
  is_input c = false -> quiet w (record_call c w).
Proof.
  intros Hc. repeat split. exists [c]. split; [reflexivity|].
  simpl. unfold is_simulator_or_hub_call. now rewrite Hc.
Qed.

Lemma quiet_assign_globals (bindings : list (string * PyObj)) (w : World) :
  quiet w (assign_globals bindings w).
Proof. repeat split. exists []. simpl. now rewrite app_nil_r. Qed.

Lemma extends_record_call (c : Call) (w : World) : extends w (record_call c w).
Proof. now exists [c]. Qed.

Lemma extends_assign_globals (bindings : list (string * PyObj)) (w : World) :
  extends w (assign_globals bindings w).
Proof. exists []. simpl. now rewrite app_nil_r. Qed.

Lemma drop_app_more {A} (l a x : list A) :
  drop (length (l ++ a)) (l ++ x) = drop (length a) x.
Proof. induction l as [|y l IH]; [reflexivity|exact IH]. Qed.

Lemma no_input_calls (calls : list Call) :
  List.forallb is_simulator_or_hub_call calls = true -> List.filter is_input calls = [].
Proof.
  induction calls as [|c calls IH]; [reflexivity|].
  simpl. unfold is_simulator_or_hub_call at 1.
  destruct (is_input c); simpl; [discriminate|exact IH].
Qed.

Lemma ordinary_exit_status {A} (e : Exn) : ordinary e -> exit_status (@Raise A e) = 1.
Proof. destruct e; simpl; intros H; try reflexivity. destruct H. Qed.

Lemma returns_ret {A} (P : A -> Prop) (a : A) : P a -> returns P (ret a).
Proof. now intros Ha w a' w' [= <- <-]. Qed.

Lemma returns_bind {A B} (Q : A -> Prop) (P : B -> Prop) (m : M A) (k : A -> M B) :
  returns Q m -> (forall a, Q a -> returns P (k a)) -> returns P (bind m k).
Proof.
  intros Hm Hk w b w' H. unfold bind in H.
  destruct (m w) as [[a|e] w1] eqn:Em; [|discriminate].
  exact (Hk a (Hm _ _ _ Em) _ _ _ H).
Qed.

Lemma returns_anything {A} (m : M A) : returns (fun _ => True) m.
Proof. now intros w a w' _. Qed.

Lemma check_integrity_ok (o : PyObj) (t : string) :
  type_name o = t -> check_integrity o t = Ok tt.
Proof. intros <-. unfold check_integrity. now rewrite String.eqb_refl. Qed.

Lemma append_assoc (a b c : string) : (a +:+ b) +:+ c = a +:+ (b +:+ c).
Proof.
  induction a as [|x a IH]; [reflexivity|].
  change (String x ((a +:+ b) +:+ c) = String x (a +:+ (b +:+ c))). now rewrite IH.
Qed.

Lemma report_line_is_dict_text (pid : Z) (step : PyObj) :
  py_str (PDict [("PID", PInt pid); ("LOCAL_MINIMUM_STEP_SIZE", step)]) = report_line pid step.
Proof.
  unfold report_line. cbn [py_str py_repr List.map join fst snd].
  rewrite !append_assoc. reflexivity.
Qed.

(** ** Proof automation *)

(** Runs run_wrapper in a hypothesis, one case for every outcome of every
    external call. *)
Ltac run_all H :=
  unfold run_wrapper, run_wrapper_select, run_wrapper_start_stop, bind, call, lift, ret,
    raise, local_hub, local_name in H;
  repeat (case_match; simplify_eq);
  repeat match goal with
         | E : (_ =? _) = true |- _ => apply Z.eqb_eq in E
         | E : (_ =? _) = false |- _ => apply Z.eqb_neq in E
         end.

Lemma trace_record_call (c : Call) (w : World) : trace (record_call c w) = trace w ++ [c].
Proof. reflexivity. Qed.

Lemma stdin_record_call (c : Call) (w : World) : stdin (record_call c w) = stdin w.
Proof. reflexivity. Qed.

Lemma stdout_record_call (c : Call) (w : World) : stdout (record_call c w) = stdout w.
Proof. reflexivity. Qed.

Lemma stderr_record_call (c : Call) (w : World) : stderr (record_call c w) = stderr w.
Proof. reflexivity. Qed.

Lemma globals_record_call (c : Call) (w : World) : globals (record_call c w) = globals w.
Proof. reflexivity. Qed.

Ltac clear_fails :=
  repeat match goal with F : fails _ _ _ = _ |- _ => clear F end.

(** Brings the worlds of the goal into the form [trace w ++ calls]; the
    projections of [record_call] are rewritten, not unfolded. *)
Ltac trace_norm :=
  clear_fails; unfold new_calls;
  rewrite ?trace_record_call, ?stdin_record_call, ?stdout_record_call, ?stderr_record_call,
    ?globals_record_call;
  rewrite <- ?app_assoc; cbn [app];
  rewrite ?drop_app_length, ?drop_app_more; cbn [app drop length].

Ltac absurd_failure Hn :=
  match goal with
  | F : fails _ _ _ = Some _ |- _ => rewrite Hn in F; discriminate F
  end.

(** The exceptions of the operations on values are ordinary. *)
Ltac pure_result :=
  let e := fresh "e" in
  let He := fresh "He" in
  intros e He;
  unfold py_get, py_unpack1, py_iter, py_getitem, index_items, np_slice_plus, read_attribute,
    argv_get, loads_b64, check_integrity, SteeringCommand.getitem in He;
  repeat case_match; simplify_eq; exact I.

Ltac quiet_step :=
  first
    [ apply (spec_ret quiet ordinary)
    | apply (spec_bind quiet ordinary); [| intros ?]
    | apply (spec_call quiet ordinary);
      [intros; apply quiet_record_call; reflexivity | intros; exact I]
    | apply (spec_set_global quiet ordinary); intros; apply quiet_assign_globals
    | apply (spec_lift quiet ordinary); pure_result
    | case_match ].

Ltac returns_step :=
  first
    [ apply returns_ret
    | apply (returns_bind (fun _ => True)); [apply returns_anything | intros ? _]
    | case_match ].

(** ** interscalehub_adapter.py: run_wrapper *)

(** C1.  In a call of run_wrapper whose direction decodes, by int, to [code]:
    a manager is constructed only for the codes 1 and 2, a NestToTvbManager for
    1 and a TvbToNestManager for 2, each with the parameters, the configuration
    manager, the log settings and the science-parameter path of the call.  When
    the external calls return, exactly that one manager is constructed for 1
    and for 2, and none for any other code. *)
Theorem run_wrapper_direction_selects_manager env direction cm ls mon sci code w r w' :
  py_int direction = Ok code ->
  run_wrapper env direction cm ls mon sci w = (r, w') ->
  let nest_to_tvb := CNestToTvbManager (hub_parameters (simulation_results_dir env)) cm ls sci in
  let tvb_to_nest := CTvbToNestManager (hub_parameters (simulation_results_dir env)) cm ls sci in
  (forall c, In c (new_calls w w') -> is_manager_call c = true ->
     (code = 1 /\ c = nest_to_tvb) \/ (code = 2 /\ c = tvb_to_nest)) /\
  (returns_normally env ->
     (code = 1 -> List.filter is_manager_call (new_calls w w') = [nest_to_tvb]) /\
     (code = 2 -> List.filter is_manager_call (new_calls w w') = [tvb_to_nest]) /\
     (code <> 1 -> code <> 2 -> List.filter is_manager_call (new_calls w w') = [])).
Proof.
  intros Hd H nest_to_tvb tvb_to_nest. subst nest_to_tvb tvb_to_nest.
  run_all H.
  all: unfold DATA_EXCHANGE_DIRECTION.NEST_TO_TVB, DATA_EXCHANGE_DIRECTION.TVB_TO_NEST in *.
  all: split;
    [ trace_norm; intros c Hin Hc; simpl in Hin; intuition (subst; try discriminate; auto)
    | intros Hn; try absurd_failure Hn; trace_norm;
      repeat split; intros; try lia; reflexivity ].
Qed.

(** C6.  In every execution of run_wrapper no hub.stop() comes before
    hub.start(); with monitoring enabled no hub.start() comes before
    start_monitoring() and no stop_monitoring() before hub.stop().  When a hub
    is selected and the external calls return, the calls after the selection
    are, in this order: the construction and the start of the monitor (with
    monitoring), hub.start(), hub.stop(), and the stop of the monitor (with
    monitoring). *)
Theorem hub_started_before_stopped env direction cm ls mon sci w r w' :
  run_wrapper env direction cm ls mon sci w = (r, w') ->
  preceded_by is_hub_start is_hub_stop (new_calls w w') = true /\
  (mon = true ->
     preceded_by is_start_monitoring is_hub_start (new_calls w w') = true /\
     preceded_by is_hub_stop is_stop_monitoring (new_calls w w') = true) /\
  (returns_normally env ->
   forall hub name w1,
     run_wrapper_select env direction cm ls sci w = (Ok (Some (hub, name)), w1) ->
     r = Ok PNone /\
     new_calls w1 w' =
       (if mon then [CResourceMonitorAdapter cm ls (getpid env) ("InterscaleHub_" +:+ name);
                     CStartMonitoring] else []) ++
       [CHubStart hub; CHubStop hub] ++
       (if mon then [CStopMonitoring] else [])).
Proof.
  intros H. split; [|split].
  - run_all H; trace_norm; reflexivity.
  - intros ->. run_all H; trace_norm; split; reflexivity.
  - intros Hn hub name w1 Hsel.
    run_all H; try absurd_failure Hn; run_all Hsel; try congruence; trace_norm;
    split; reflexivity.
Qed.

(** C10.  In every execution of run_wrapper with monitoring disabled: no
    ResourceMonitorAdapter is constructed and no monitoring call is made; the
    standard streams and the globals are untouched; after the selection of a
    hub the only calls are hub.start() and, when that returns, hub.stop().
    When the external calls return, the run with monitoring enabled differs
    only by the calls on the monitor (and, without a hub, by the name the
    UnboundLocalError reports). *)
Theorem run_wrapper_without_monitoring env direction cm ls sci w r w' :
  run_wrapper env direction cm ls false sci w = (r, w') ->
  List.filter is_monitor_call (new_calls w w') = [] /\
  (stdin w' = stdin w /\ stdout w' = stdout w /\ stderr w' = stderr w /\
   globals w' = globals w) /\
  (forall hub name w1,
     run_wrapper_select env direction cm ls sci w = (Ok (Some (hub, name)), w1) ->
     (new_calls w1 w' = [CHubStart hub] \/ new_calls w1 w' = [CHubStart hub; CHubStop hub]) /\
     (returns_normally env -> new_calls w1 w' = [CHubStart hub; CHubStop hub])) /\
  (returns_normally env ->
   forall r2 w2,
     run_wrapper env direction cm ls true sci w = (r2, w2) ->
     List.filter (fun c => negb (is_monitor_call c)) (new_calls w w2) = new_calls w w' /\
     (stdin w2 = stdin w' /\ stdout w2 = stdout w' /\ stderr w2 = stderr w' /\
      globals w2 = globals w') /\
     (r2 = r \/ exists v v2, r = Raise (UnboundLocalError v) /\
                             r2 = Raise (UnboundLocalError v2))).
Proof.
  intros H. split; [|split; [|split]].
  - run_all H; trace_norm; reflexivity.
  - run_all H; trace_norm; repeat split; reflexivity.
  - intros hub name w1 Hsel.
    run_all H; run_all Hsel; try congruence;
    (split; [trace_norm; auto | intros Hn; try absurd_failure Hn; trace_norm; reflexivity]).
  - intros Hn r2 w2 H2.
    run_all H; try absurd_failure Hn; run_all H2; try absurd_failure Hn;
    try congruence; trace_norm;
    (split; [reflexivity | split; [repeat split; reflexivity | eauto]]).
Qed.

(** C8, as amended.  When the direction decodes to neither code (and
    get_directory returns), run_wrapper binds neither [hub] nor [name],
    constructs and starts nothing, and raises an UnboundLocalError, a
    NameError: for [hub], at hub.start(), when monitoring is disabled, and for
    [name], in the arguments of ResourceMonitorAdapter, when it is enabled. *)
Theorem run_wrapper_unknown_direction env direction cm ls mon sci code w r w' :
  py_int direction = Ok code ->
  code <> DATA_EXCHANGE_DIRECTION.NEST_TO_TVB ->
  code <> DATA_EXCHANGE_DIRECTION.TVB_TO_NEST ->
  fails env (trace w) (CGetDirectory cm) = None ->
  run_wrapper env direction cm ls mon sci w = (r, w') ->
  run_wrapper_select env direction cm ls sci w = (Ok None, record_call (CGetDirectory cm) w) /\
  r = Raise (UnboundLocalError (if mon then "name" else "hub")) /\
  (forall e, r = Raise e -> is_NameError e = true) /\
  new_calls w w' = [CGetDirectory cm].
Proof.
  intros Hd H1 H2 Hf H. split.
  - unfold run_wrapper_select, bind, call, lift, ret. rewrite Hf, Hd.
    destruct (Z.eqb_spec code DATA_EXCHANGE_DIRECTION.NEST_TO_TVB); [contradiction|].
    destruct (Z.eqb_spec code DATA_EXCHANGE_DIRECTION.TVB_TO_NEST); [contradiction|].
    reflexivity.
  - run_all H; try congruence; trace_norm.
    all: repeat split; try reflexivity.
    all: intros e [= <-]; reflexivity.
Qed.

(** C8, as stated, fails: with monitoring enabled and the direction 3 the
    exception is raised for [name], before hub.start() is reached. *)
Lemma unknown_direction_with_monitoring_counterexample :
  let run := run_wrapper Demo.env (DStr "3") Demo.cm Demo.log_settings true "params.xml"
               (initial_world []) in
  py_int (DStr "3") = Ok 3 /\
  fst run = Raise (UnboundLocalError "name") /\
  fst run <> Raise (UnboundLocalError "hub") /\
  List.filter is_hub_start (trace (snd run)) = [].
Proof. vm_compute. repeat split. discriminate. Qed.

(** ** interscalehub_adapter.py: the main program *)

Lemma bind_lift_ok {A B} (a : A) (k : A -> M B) (w : World) :
  bind (lift (Ok a)) k w = k a w.
Proof. reflexivity. Qed.

Lemma bind_lift_raise {A B} (e : Exn) (k : A -> M B) (w : World) :
  bind (lift (Raise e)) k w = (Raise e, w).
Proof. reflexivity. Qed.

Lemma bind_set_global {B} (name : string) (v : PyObj) (k : unit -> M B) (w : World) :
  bind (set_global name v) k w = k tt (assign_globals [(name, v)] w).
Proof. reflexivity. Qed.

Lemma assign_globals_app (l1 l2 : list (string * PyObj)) (w : World) :
  assign_globals l2 (assign_globals l1 w) = assign_globals (l1 ++ l2) w.
Proof. unfold assign_globals. cbn [trace stdin stdout stderr globals]. now rewrite fold_left_app. Qed.

Lemma trace_assign_globals l w : trace (assign_globals l w) = trace w.
Proof. reflexivity. Qed.

(** One step of a main program: a value, an exception or an assignment. *)
Ltac main_step :=
  first [ rewrite bind_lift_ok | rewrite bind_set_global | rewrite bind_lift_raise ];
  cbv beta.

(** C5, as amended.  argv[1] is the direction and argv[4] the
    science-parameter file path, both handed to run_wrapper as the strings they
    are; argv[2], argv[3] and argv[5] are base64-decoded and then unpickled
    into the configuration manager, the log settings and the monitoring flag.
    With objects that pass the checks the main program is run_wrapper on these
    five values, followed by sys.exit. *)
Theorem interscalehub_main_arguments env prog d a2 a3 sci a5 rest cm ls flag w :
  loads_b64 env a2 = Ok cm ->
  loads_b64 env a3 = Ok ls ->
  loads_b64 env a5 = Ok flag ->
  type_name cm = "ConfigurationsManager" ->
  type_name ls = "dict" ->
  type_name flag = "bool" ->
  interscalehub_main env (prog :: d :: a2 :: a3 :: sci :: a5 :: rest) w =
  bind (run_wrapper env (DStr d) cm ls (py_truthy flag) sci) sys_exit
    (assign_globals [("direction", PStr d); ("configurations_manager", cm);
                     ("log_settings", ls);
                     ("p_sci_params_xml_path_filename", PStr sci);
                     ("is_monitoring_enabled", flag)] w).
Proof.
  intros H2 H3 H5 T1 T2 T3.
  unfold interscalehub_main, argv_get. cbn [nth_error].
  repeat first [ main_step | rewrite H2 | rewrite H3 | rewrite H5
               | rewrite (check_integrity_ok _ _ T1) | rewrite (check_integrity_ok _ _ T2)
               | rewrite (check_integrity_ok _ _ T3) ].
  rewrite !assign_globals_app. reflexivity.
Qed.

Lemma check_integrity_raise (o : PyObj) (t : string) :
  type_name o <> t -> check_integrity o t = Raise (IntegrityError t).
Proof.
  intros H. unfold check_integrity.
  destruct (String.eqb_spec (type_name o) t); [contradiction|reflexivity].
Qed.

(** C5, as stated, fails: the path in argv[4] is not a base64-encoded pickle
    and is not decoded.  With the plain path params.xml the program as
    specified stops with binascii.Error, while the program runs the hub and
    hands params.xml to the manager. *)
Lemma sci_params_path_is_not_decoded :
  let argv := Demo.hub_argv "1" "b24=" in
  nth_error argv 4 = Some "params.xml" /\
  loads_b64 Demo.env "params.xml" = Raise Binascii_Error /\
  fst (interscalehub_main_as_specified Demo.env argv (initial_world [])) =
    Raise Binascii_Error /\
  fst (interscalehub_main Demo.env argv (initial_world [])) = Raise (SystemExit PNone) /\
  In (CNestToTvbManager (hub_parameters "/results") Demo.cm Demo.log_settings "params.xml")
     (trace (snd (interscalehub_main Demo.env argv (initial_world [])))).
Proof. vm_compute. repeat split; auto. Qed.

Lemma run_wrapper_first_call env direction cm ls mon sci w r w' :
  run_wrapper env direction cm ls mon sci w = (r, w') ->
  exists calls, trace w' = trace w ++ CGetDirectory cm :: calls.
Proof.
  intros H. run_all H; clear_fails;
    rewrite ?trace_record_call, <- ?app_assoc; cbn [app]; eexists; reflexivity.
Qed.

Lemma interscalehub_main_checks env prog d a2 a3 sci a5 rest cm ls flag w r w' :
  loads_b64 env a2 = Ok cm ->
  loads_b64 env a3 = Ok ls ->
  loads_b64 env a5 = Ok flag ->
  interscalehub_main env (prog :: d :: a2 :: a3 :: sci :: a5 :: rest) w = (r, w') ->
  (type_name cm <> "ConfigurationsManager" \/ type_name ls <> "dict" \/
   type_name flag <> "bool" ->
   (exists expected, r = Raise (IntegrityError expected)) /\ new_calls w w' = []) /\
  (type_name cm = "ConfigurationsManager" -> type_name ls = "dict" ->
   type_name flag = "bool" ->
   exists calls, new_calls w w' = CGetDirectory cm :: calls).
Proof.
  intros H2 H3 H5 H. split.
  - intros Hbad.
    unfold interscalehub_main, argv_get in H. cbn [nth_error] in H.
    repeat first [ rewrite bind_lift_ok in H | rewrite bind_set_global in H
                 | rewrite H2 in H | rewrite H3 in H | rewrite H5 in H ]; cbv beta in H.
    destruct (decide (type_name cm = "ConfigurationsManager")) as [T1|T1];
      [rewrite (check_integrity_ok _ _ T1), bind_lift_ok in H
      |rewrite (check_integrity_raise _ _ T1), bind_lift_raise in H].
    2: { injection H as <- <-. split; [eauto|]. apply new_calls_app.
         rewrite !trace_assign_globals. symmetry; apply app_nil_r. }
    destruct (decide (type_name ls = "dict")) as [T2|T2];
      [rewrite (check_integrity_ok _ _ T2), bind_lift_ok in H
      |rewrite (check_integrity_raise _ _ T2), bind_lift_raise in H].
    2: { injection H as <- <-. split; [eauto|]. apply new_calls_app.
         rewrite !trace_assign_globals. symmetry; apply app_nil_r. }
    destruct (decide (type_name flag = "bool")) as [T3|T3];
      [tauto|rewrite (check_integrity_raise _ _ T3), bind_lift_raise in H].
    injection H as <- <-. split; [eauto|]. apply new_calls_app.
    rewrite !trace_assign_globals. symmetry; apply app_nil_r.
  - intros T1 T2 T3.
    rewrite (interscalehub_main_arguments _ _ _ _ _ _ _ _ _ _ _ _ H2 H3 H5 T1 T2 T3) in H.
    unfold bind in H.
    destruct (run_wrapper _ _ _ _ _ _ _) as [r1 w1] eqn:Hr.
    apply run_wrapper_first_call in Hr as [calls Hc].
    rewrite trace_assign_globals in Hc.
    exists calls. apply new_calls_app.
    destruct r1; unfold sys_exit, raise in H; injection H as <- <-; exact Hc.
Qed.

(** ** tvb_adapter.py *)

Lemma get_global_quiet (name : string) : spec quiet ordinary (get_global name).
Proof.
  intros w r w' H. unfold get_global in H.
  destruct (globals w !! name); injection H as <- <-; (split; [reflexivity|]).
  - discriminate.
  - now intros e [= <-].
Qed.

Lemma init_port_name_quiet env self hub : spec quiet ordinary (init_port_name env self hub).
Proof. unfold init_port_name. repeat quiet_step. Qed.

Lemma init_port_names_loop_quiet env addresses :
  forall self, spec quiet ordinary (init_port_names_loop env self addresses).
Proof.
  induction addresses as [|hub rest IH]; intros self; simpl.
  - apply (spec_ret quiet ordinary).
  - apply (spec_bind quiet ordinary); [apply init_port_name_quiet|intros; apply IH].
Qed.

Lemma TVBAdapter_init_quiet env cm ls addresses sci :
  spec quiet ordinary (TVBAdapter_init env cm ls addresses sci).
Proof.
  unfold TVBAdapter_init, init_port_names.
  repeat first [apply init_port_names_loop_quiet | quiet_step].
Qed.

Lemma configure_quiet env : spec quiet ordinary (configure env).
Proof. unfold configure. repeat quiet_step. Qed.

Lemma execute_init_command_quiet env self : spec quiet ordinary (execute_init_command env self).
Proof. unfold execute_init_command. repeat first [apply configure_quiet | quiet_step]. Qed.

Lemma execute_start_command_quiet env self : spec quiet ordinary (execute_start_command env self).
Proof. unfold execute_start_command. repeat quiet_step. Qed.

Lemma execute_end_command_quiet env self p :
  spec quiet ordinary (execute_end_command env self p).
Proof. unfold execute_end_command. repeat first [apply get_global_quiet | quiet_step]. Qed.

Lemma init_port_name_parameters env self hub :
  returns (fun self' => __parameters self' = __parameters self) (init_port_name env self hub).
Proof. unfold init_port_name. repeat returns_step; reflexivity. Qed.

Lemma init_port_names_loop_parameters env addresses :
  forall self,
    returns (fun self' => __parameters self' = __parameters self)
      (init_port_names_loop env self addresses).
Proof.
  induction addresses as [|hub rest IH]; intros self; simpl.
  - now apply returns_ret.
  - eapply returns_bind; [apply init_port_name_parameters|].
    intros self1 H1 w self' w' H. rewrite <- H1. exact (IH self1 _ _ _ H).
Qed.

Lemma init_port_names_parameters env self addresses :
  returns (fun self' => __parameters self' = __parameters self)
    (init_port_names env self addresses).
Proof.
  unfold init_port_names. do 2 returns_step. apply init_port_names_loop_parameters.
Qed.

Lemma TVBAdapter_init_parameters env cm ls addresses sci :
  returns (fun self => __parameters self = new_parameters env (simulation_results_dir env))
    (TVBAdapter_init env cm ls addresses sci).
Proof.
  unfold TVBAdapter_init. do 4 returns_step.
  eapply returns_bind; [apply init_port_names_parameters|].
  intros self H. simpl in H. repeat returns_step. exact H.
Qed.

Lemma execute_init_command_returns_time_synch env self :
  returns (fun out => snd out = time_synch (__parameters self) /\
                      __parameters (fst out) = __parameters self)
    (execute_init_command env self).
Proof. unfold execute_init_command. repeat returns_step. split; reflexivity. Qed.

Ltac use_quiet :=
  repeat match goal with
         | H : TVBAdapter_init _ _ _ _ _ _ = _ |- _ =>
             let Q := fresh "Q" in let X := fresh "X" in
             pose proof (TVBAdapter_init_quiet _ _ _ _ _ _ _ _ H) as [Q X];
             try pose proof (TVBAdapter_init_parameters _ _ _ _ _ _ _ _ H);
             revert H
         | H : execute_init_command _ _ _ = _ |- _ =>
             let Q := fresh "Q" in let X := fresh "X" in
             pose proof (execute_init_command_quiet _ _ _ _ _ H) as [Q X];
             try pose proof (execute_init_command_returns_time_synch _ _ _ _ _ H);
             revert H
         | H : execute_start_command _ _ _ = _ |- _ =>
             let Q := fresh "Q" in let X := fresh "X" in
             pose proof (execute_start_command_quiet _ _ _ _ _ H) as [Q X]; revert H
         | H : execute_end_command _ _ _ _ = _ |- _ =>
             let Q := fresh "Q" in let X := fresh "X" in
             pose proof (execute_end_command_quiet _ _ _ _ _ _ H) as [Q X]; revert H
         end;
  intros;
  unfold quiet in *; cbn [trace stdin stdout stderr globals fst snd] in *;
  repeat match goal with
         | H : _ /\ _ |- _ => destruct H
         | H : exists _, _ |- _ => destruct H
         end.

Ltac trace_goal :=
  eexists; split;
  [ repeat match goal with
           | T : trace ?x = _ |- context [trace ?x] => rewrite T; clear T
           end;
    rewrite <- ?app_assoc;
    first [reflexivity | symmetry; apply app_nil_r]
  | rewrite ?forallb_app;
    repeat match goal with
           | F : List.forallb _ _ = true |- _ => rewrite F; clear F
           end;
    reflexivity ].

Ltac ordinary_goal :=
  match goal with
  | X : forall e, Raise ?e0 = Raise e -> ordinary e |- ordinary ?e0 => exact (X _ eq_refl)
  | H : _ = Raise ?e0 |- ordinary ?e0 =>
      unfold py_get, py_unpack1, py_iter, py_getitem, index_items, np_slice_plus,
        read_attribute, argv_get, loads_b64, check_integrity, SteeringCommand.getitem in H;
      repeat case_match; simplify_eq; exact I
  end.

Lemma tvb_main_init_spec env argv w r w1 :
  tvb_main_init env argv w = (r, w1) ->
  stdin w1 = stdin w /\ stderr w1 = stderr w /\
  (exists calls, trace w1 = trace w ++ calls /\
                 List.forallb is_simulator_or_hub_call calls = true) /\
  match r with
  | Ok self =>
      stdout w1 = stdout w ++
        [report_line (getpid env)
           (time_synch (new_parameters env (simulation_results_dir env)))] /\
      __parameters self = new_parameters env (simulation_results_dir env)
  | Raise e => stdout w1 = stdout w /\ ordinary e
  end.
Proof.
  intros H. unfold tvb_main_init, bind, lift, ret, set_global, print_stdout in H.
  repeat (case_match; simplify_eq); cbn [trace stdin stdout stderr globals] in *.
  all: use_quiet.
  all: repeat match goal with |- _ /\ _ => split end.
  all: try congruence.
  all: try trace_goal.
  all: try ordinary_goal.
  rewrite report_line_is_dict_text. congruence.
Qed.

Lemma tvb_main_steering_spec env self w r w' :
  tvb_main_steering env self w = (r, w') ->
  stdout w' = stdout w /\ stdin w' = tl (stdin w) /\
  (exists calls, trace w' = trace w ++ CInput :: calls /\
                 List.forallb is_simulator_or_hub_call calls = true) /\
  (exit_status r = 0 \/ exit_status r = 1).
Proof.
  intros H.
  unfold tvb_main_steering, bind, input, lift, ret, set_global, print_stderr, sys_exit,
    raise, record_call in H.
  repeat (case_match; simplify_eq); cbn [trace stdin stdout stderr globals] in *.
  all: use_quiet.
  all: repeat match goal with |- _ /\ _ => split end.
  all: try congruence.
  all: try (cbn [tail]; congruence).
  all: try (eexists; split;
            [ repeat match goal with
                     | T : trace ?x = _ |- context [trace ?x] => rewrite T; clear T
                     end;
              rewrite <- ?app_assoc; cbn [app]; reflexivity
            | rewrite ?forallb_app;
              repeat match goal with
                     | F : List.forallb _ _ = true |- _ => rewrite F; clear F
                     end;
              reflexivity ]).
  all: try (left; reflexivity).
  all: try (right; reflexivity).
  all: right; apply ordinary_exit_status; ordinary_goal.
Qed.

Lemma tvb_main_split env argv w r w' :
  tvb_main env argv w = (r, w') ->
  (exists e, tvb_main_init env argv w = (Raise e, w') /\ r = Raise e) \/
  (exists self w1, tvb_main_init env argv w = (Ok self, w1) /\
                   tvb_main_steering env self w1 = (r, w')).
Proof.
  unfold tvb_main, bind. destruct (tvb_main_init env argv w) as [[self|e] w1].
  - intros H. right. eauto.
  - intros [= <- <-]. left. eauto.
Qed.

(** C2.  In every run of the TVB adapter main program that ends with exit
    status 0, exactly one line is printed to stdout: the text of the
    dictionary with the keys PID and LOCAL_MINIMUM_STEP_SIZE, whose values are
    os.getpid() and the time_synch attribute of the Parameters object of the
    adapter, the value execute_init_command returns
    ([execute_init_command_returns_time_synch]). *)
Theorem tvb_reports_pid_and_step env argv lines r w' :
  tvb_main env argv (initial_world lines) = (r, w') ->
  exit_status r = 0 ->
  let step := time_synch (new_parameters env (simulation_results_dir env)) in
  stdout w' = [py_str (PDict [("PID", PInt (getpid env));
                              ("LOCAL_MINIMUM_STEP_SIZE", step)])] /\
  py_str (PDict [("PID", PInt (getpid env)); ("LOCAL_MINIMUM_STEP_SIZE", step)]) =
    "{'PID': " +:+ NilZero.string_of_int (Z.to_int (getpid env)) +:+
    ", 'LOCAL_MINIMUM_STEP_SIZE': " +:+ py_repr step +:+ "}".
Proof.
  intros H Hexit step. split; [|apply report_line_is_dict_text].
  rewrite report_line_is_dict_text.
  destruct (tvb_main_split _ _ _ _ _ H) as [(e & Hi & ->)|(self & w1 & Hi & Hs)].
  - destruct (tvb_main_init_spec _ _ _ _ _ Hi) as (_ & _ & _ & _ & He).
    rewrite (ordinary_exit_status e He) in Hexit. discriminate.
  - destruct (tvb_main_init_spec _ _ _ _ _ Hi) as (_ & _ & _ & Ho & _).
    destruct (tvb_main_steering_spec _ _ _ _ _ Hs) as (Hs1 & _).
    rewrite Hs1, Ho. reflexivity.
Qed.

(** C7.  In every run of the TVB adapter main program that reaches the
    steering phase, input() is called exactly once and at most one line of
    stdin is consumed, whatever the line is. *)
Theorem tvb_reads_stdin_once env argv lines self w1 r w' :
  tvb_main_init env argv (initial_world lines) = (Ok self, w1) ->
  tvb_main env argv (initial_world lines) = (r, w') ->
  inputs w' = 1%nat /\ stdin w' = tl lines.
Proof.
  intros Hi H.
  destruct (tvb_main_split _ _ _ _ _ H) as [(e & Hi' & ->)|(self' & w1' & Hi' & Hs)];
    rewrite Hi in Hi'; [discriminate|]. injection Hi' as <- <-.
  destruct (tvb_main_init_spec _ _ _ _ _ Hi) as (Hin & _ & (c1 & T1 & F1) & _).
  destruct (tvb_main_steering_spec _ _ _ _ _ Hs) as (_ & Hin2 & (c2 & T2 & F2) & _).
  split.
  - unfold inputs. rewrite T2, T1. cbn [initial_world trace app].
    rewrite List.filter_app. cbn [List.filter is_input].
    rewrite (no_input_calls _ F1), (no_input_calls _ F2). reflexivity.
  - rewrite Hin2, Hin. reflexivity.
Qed.

Lemma bind_call_first env (c : Call) {A} (k : unit -> M A) w r w' :
  spec quiet ordinary (k tt) ->
  bind (call env c) k w = (r, w') ->
  exists calls, trace w' = trace w ++ c :: calls.
Proof.
  intros Hk H. unfold bind in H.
  destruct (call_cases env c w) as [Hc|[e Hc]]; rewrite Hc in H.
  - destruct (Hk _ _ _ H) as [(_ & _ & _ & l & T & _) _].
    exists l. rewrite T. cbn [record_call trace]. now rewrite <- app_assoc.
  - injection H as <- <-. now exists [].
Qed.

Lemma TVBAdapter_init_first_call env cm ls addresses sci w r w' :
  TVBAdapter_init env cm ls addresses sci w = (r, w') ->
  exists calls,
    trace w' = trace w ++ CExt "configurations_manager.load_log_configurations" :: calls.
Proof.
  unfold TVBAdapter_init. apply bind_call_first.
  unfold init_port_names. repeat first [apply init_port_names_loop_quiet | quiet_step].
Qed.

Lemma tvb_main_checks env prog a1 a2 sci a4 rest cm ls addresses w r w' :
  loads_b64 env a1 = Ok cm ->
  loads_b64 env a2 = Ok ls ->
  loads_b64 env a4 = Ok addresses ->
  tvb_main env (prog :: a1 :: a2 :: sci :: a4 :: rest) w = (r, w') ->
  (type_name cm <> "ConfigurationsManager" \/ type_name ls <> "dict" \/
   type_name addresses <> "list" ->
   (exists expected, r = Raise (IntegrityError expected)) /\ new_calls w w' = []) /\
  (type_name cm = "ConfigurationsManager" -> type_name ls = "dict" ->
   type_name addresses = "list" ->
   exists calls,
     new_calls w w' = CExt "configurations_manager.load_log_configurations" :: calls).
Proof.
  intros H1 H2 H4 H. split.
  - intros Hbad.
    unfold tvb_main, tvb_main_init, bind, lift, set_global, argv_get in H.
    cbn [nth_error] in H. rewrite H1, H2, H4 in H.
    unfold check_integrity in H.
    destruct (String.eqb_spec (type_name cm) "ConfigurationsManager");
      [|injection H as <- <-; split; [eauto|apply new_calls_app; symmetry; apply app_nil_r]].
    destruct (String.eqb_spec (type_name ls) "dict");
      [|injection H as <- <-; split; [eauto|apply new_calls_app; symmetry; apply app_nil_r]].
    destruct (String.eqb_spec (type_name addresses) "list");
      [|injection H as <- <-; split; [eauto|apply new_calls_app; symmetry; apply app_nil_r]].
    tauto.
  - intros T1 T2 T3.
    assert (forall r1 w1,
              tvb_main_init env (prog :: a1 :: a2 :: sci :: a4 :: rest) w = (r1, w1) ->
              exists calls,
                trace w1 =
                trace w ++ CExt "configurations_manager.load_log_configurations" :: calls)
      as Hinit.
    { intros r1 w1 Hi.
      unfold tvb_main_init, bind, lift, ret, set_global, print_stdout, argv_get in Hi.
      cbn [nth_error] in Hi. rewrite H1, H2, H4 in Hi.
      rewrite (check_integrity_ok _ _ T1), (check_integrity_ok _ _ T2),
        (check_integrity_ok _ _ T3) in Hi.
      cbn [trace stdin stdout stderr globals] in Hi.
      destruct (TVBAdapter_init _ _ _ _ _ _) as [[self|e] w0] eqn:Ha.
      - apply TVBAdapter_init_first_call in Ha as [c0 T0].
        cbn [trace] in T0.
        destruct (execute_init_command _ _ _) as [[out|e] w2] eqn:Hb;
          apply execute_init_command_quiet in Hb as [(_ & _ & _ & c2 & T2' & _) _];
          cbn [trace] in T2'; injection Hi as <- <-; cbn [trace];
          exists (c0 ++ c2); rewrite T2', T0, <- app_assoc; reflexivity.
      - injection Hi as <- <-. apply TVBAdapter_init_first_call in Ha as [c0 T0].
        exists c0. exact T0. }
    destruct (tvb_main_split _ _ _ _ _ H) as [(e & Hi & ->)|(self & w1 & Hi & Hs)].
    + destruct (Hinit _ _ Hi) as [calls Hc]. exists calls. now apply new_calls_app.
    + destruct (Hinit _ _ Hi) as [calls Hc].
      destruct (tvb_main_steering_spec _ _ _ _ _ Hs) as (_ & _ & (c2 & T2' & _) & _).
      exists (calls ++ CInput :: c2). apply new_calls_app.
      rewrite T2', Hc, <- app_assoc. reflexivity.
Qed.

(** C9, as amended.  A call of execute_end_command made where no global
    raw_results is bound, in which [p_raw_results[0]] can be evaluated and the
    two calls before plt.plot return, raises NameError for raw_results, after
    logger.info and plt.figure only; and a call that completes was made with
    the global raw_results bound. *)
Theorem execute_end_command_needs_global env self p_raw_results w r w' :
  execute_end_command env self p_raw_results w = (r, w') ->
  (globals w !! "raw_results" = None ->
   (exists x, py_getitem p_raw_results 0 = Ok x) ->
   fails env (trace w) (CExt "logger.info") = None ->
   fails env (trace w ++ [CExt "logger.info"]) (CExt "plt.figure") = None ->
   r = Raise (NameError "raw_results") /\ new_calls w w' = [CExt "logger.info"; CExt "plt.figure"]) /\
  (forall v, r = Ok v -> is_Some (globals w !! "raw_results")).
Proof.
  intros H. split.
  - intros Hg [x Hx] F1 F2.
    unfold execute_end_command, bind, call, lift, get_global in H.
    rewrite F1 in H. cbn [record_call trace stdin stdout stderr globals] in H.
    rewrite F2, Hx in H. cbn [record_call trace stdin stdout stderr globals] in H.
    rewrite Hg in H. injection H as <- <-. split; [reflexivity|].
    apply new_calls_app. unfold record_call. cbn [trace]. now rewrite <- app_assoc.
  - intros v ->.
    unfold execute_end_command, bind, call, lift, get_global, record_call in H.
    cbn [trace stdin stdout stderr globals] in H.
    repeat (case_match; simplify_eq); cbn [trace stdin stdout stderr globals] in *; eauto.
Qed.

(** C9, as stated, fails: without the argument, p_raw_results is None and
    [p_raw_results[0]], which is evaluated before the name raw_results, raises
    TypeError, not NameError. *)
Lemma execute_end_command_default_counterexample :
  globals (initial_world []) !! "raw_results" = None /\
  fst (execute_end_command Demo.env Demo.adapter PNone (initial_world [])) = Raise TypeError /\
  is_NameError TypeError = false.
Proof. vm_compute. repeat split. Qed.

(** ** check_integrity at the call sites of both adapters *)

(** C4.  check_integrity raises for an object that is not of the expected
    type and returns for one that is.  In both main programs, once the
    arguments are unpickled: when one of the three checked objects is not of
    its expected type (ConfigurationsManager, dict and bool for the hub
    adapter; ConfigurationsManager, dict and list for the TVB adapter) the
    program stops with the exception of check_integrity before any call into
    the hub or the simulator; when all three are, it goes on to the first call
    after the checks. *)
Theorem check_integrity_guards_both_adapters env :
  (forall o expected,
     (type_name o <> expected -> exists e, check_integrity o expected = Raise e) /\
     (type_name o = expected -> check_integrity o expected = Ok tt)) /\
  (forall prog d a2 a3 sci a5 rest cm ls flag w r w',
     loads_b64 env a2 = Ok cm ->
     loads_b64 env a3 = Ok ls ->
     loads_b64 env a5 = Ok flag ->
     interscalehub_main env (prog :: d :: a2 :: a3 :: sci :: a5 :: rest) w = (r, w') ->
     (type_name cm <> "ConfigurationsManager" \/ type_name ls <> "dict" \/
      type_name flag <> "bool" ->
      (exists expected, r = Raise (IntegrityError expected)) /\ new_calls w w' = []) /\
     (type_name cm = "ConfigurationsManager" -> type_name ls = "dict" ->
      type_name flag = "bool" ->
      exists calls, new_calls w w' = CGetDirectory cm :: calls)) /\
  (forall prog a1 a2 sci a4 rest cm ls addresses w r w',
     loads_b64 env a1 = Ok cm ->
     loads_b64 env a2 = Ok ls ->
     loads_b64 env a4 = Ok addresses ->
     tvb_main env (prog :: a1 :: a2 :: sci :: a4 :: rest) w = (r, w') ->
     (type_name cm <> "ConfigurationsManager" \/ type_name ls <> "dict" \/
      type_name addresses <> "list" ->
      (exists expected, r = Raise (IntegrityError expected)) /\ new_calls w w' = []) /\
     (type_name cm = "ConfigurationsManager" -> type_name ls = "dict" ->
      type_name addresses = "list" ->
      exists calls,
        new_calls w w' = CExt "configurations_manager.load_log_configurations" :: calls)).
Proof.
  split; [|split].
  - intros o expected. split.
    + intros H. rewrite (check_integrity_raise _ _ H). eauto.
    + apply check_integrity_ok.
  - intros. eapply interscalehub_main_checks; eassumption.
  - intros. eapply tvb_main_checks; eassumption.
Qed.

(** ** The steering phase of tvb_adapter.py *)

Lemma steering_unknown_name env self w key rest :
  stdin w = key :: rest ->
  SteeringCommand.getitem key = Raise (KeyError key) ->
  exists w', tvb_main_steering env self w = (Raise (KeyError key), w') /\
             stderr w' = stderr w /\ new_calls w w' = [CInput].
Proof.
  intros Hin Hkey. unfold tvb_main_steering, bind at 1, input. rewrite Hin.
  rewrite bind_set_global, Hkey, bind_lift_raise.
  eexists. split; [reflexivity|]. split; [reflexivity|].
  apply new_calls_app. reflexivity.
Qed.

Lemma steering_other_member env self w key rest command :
  stdin w = key :: rest ->
  SteeringCommand.getitem key = Ok command ->
  command <> START ->
  exists w', tvb_main_steering env self w = (Raise (SystemExit (PInt 1)), w') /\
             stderr w' = stderr w ++ ["unknown steering command: " +:+
                                      SteeringCommand.str command] /\
             new_calls w w' = [CInput].
Proof.
  intros Hin Hkey Hc. unfold tvb_main_steering, bind at 1, input. rewrite Hin.
  rewrite bind_set_global, Hkey, bind_lift_ok. cbv beta.
  destruct command; [|contradiction|]; cbn [SteeringCommand.eqb];
    rewrite bind_lift_ok; unfold bind, print_stderr, sys_exit, raise;
    (eexists; split; [reflexivity|]; split; [reflexivity|]);
    apply new_calls_app; reflexivity.
Qed.

(** With START the simulation runs, the plot is made and the status is 0. *)
Example tvb_main_start :
  let run := tvb_main Demo.env Demo.tvb_argv (initial_world ["START"]) in
  fst run = Raise (SystemExit (PInt 0)) /\
  exit_status (fst run) = 0 /\
  List.filter (fun c => negb (is_input c)) (skipn 30 (trace (snd run))) =
    [CExt "logger.debug"; CRunSimulation; CExt "logger.debug"; CExt "logger.info";
     CExt "plt.figure"; CPlot (PArray "time") (PArray "data[:, 0, :, 0] + 3.0");
     CExt "plt.title"; CSavefig "/results/figures/plot_tvb.png"; CExt "logger.debug"] /\
  stderr (snd run) = [].
Proof. vm_compute. repeat split. Qed.

(** With a member of SteeringCommands other than START the message goes to
    stderr and the status is 1. *)
Example tvb_main_end :
  let run := tvb_main Demo.env Demo.tvb_argv (initial_world ["END"]) in
  fst run = Raise (SystemExit (PInt 1)) /\
  exit_status (fst run) = 1 /\
  stderr (snd run) = ["unknown steering command: SteeringCommands.END"].
Proof. vm_compute. repeat split. Qed.

(** C3.  The code at the input FOO, a line that names no member of
    SteeringCommands: the lookup [SteeringCommands[user_action_command]] of
    line 193 raises KeyError; the message of the else branch is not printed,
    stderr receives nothing from the program, and the interpreter ends with
    status 1 for the uncaught exception. *)
Theorem tvb_main_unknown_command_raises_KeyError :
  let run := tvb_main Demo.env Demo.tvb_argv (initial_world ["FOO"]) in
  fst run = Raise (KeyError "FOO") /\
  stderr (snd run) = [] /\
  exit_status (fst run) = 1.
Proof. vm_compute. repeat split. Qed.

(** ** Stepping through a run *)

Lemma bind_call_ok env (c : Call) {B} (k : unit -> M B) (w : World) :
  fails env (trace w) c = None -> bind (call env c) k w = k tt (record_call c w).
Proof. intros H. unfold bind, call. now rewrite H. Qed.

Lemma bind_ret {A B} (a : A) (k : A -> M B) (w : World) : bind (ret a) k w = k a w.
Proof. reflexivity. Qed.

Lemma bind_ok {A B} (m : M A) (k : A -> M B) (w w1 : World) (a : A) :
  m w = (Ok a, w1) -> bind m k w = k a w1.
Proof. intros H. unfold bind. now rewrite H. Qed.

Lemma bind_raise {A B} (m : M A) (k : A -> M B) (w w1 : World) (e : Exn) :
  m w = (Raise e, w1) -> bind m k w = (Raise e, w1).
Proof. intros H. unfold bind. now rewrite H. Qed.

Lemma trace_record_calls (calls : list Call) (w : World) :
  trace (record_calls calls w) = trace w ++ calls.
Proof.
  unfold record_calls. revert w.
  induction calls as [|c calls IH]; intros w; cbn [fold_left].
  - symmetry; apply app_nil_r.
  - rewrite IH, trace_record_call, <- app_assoc. reflexivity.
Qed.




Lemma new_calls_record_calls (calls : list Call) (w : World) :
  new_calls w (record_calls calls w) = calls.
Proof. apply new_calls_app, trace_record_calls. Qed.

Lemma new_calls_same_trace (w0 w w' : World) :
  trace w0 = trace w -> new_calls w0 w' = new_calls w w'.
Proof. intros H. unfold new_calls. now rewrite H. Qed.

(** One step of the main program, in a hypothesis. *)
Ltac main_step_in H :=
  first [ rewrite bind_lift_ok in H | rewrite bind_set_global in H
        | rewrite bind_lift_raise in H ];
  cbv beta in H.

(** One step of a run in which the external calls return. *)
Ltac normal_step Hn :=
  first [ rewrite (bind_call_ok _ _ _ _ (Hn _ _))
        | rewrite bind_lift_ok | rewrite bind_set_global | rewrite bind_lift_raise
        | rewrite bind_ret ];
  cbv beta.

(** ** tvb_adapter.py: the endpoints of the adapter *)

Lemma init_port_name_addresses env self hub w self' w' :
  init_port_name env self hub w = (Ok self', w') ->
  is_dict hub = true /\
  __interscalehub_nest_to_tvb_address self' =
    (if has_direction hub "NEST_TO_TVB"
     then match py_get hub "MPI_CONNECTION_INFO" with Ok a => Some a | Raise _ => None end
     else __interscalehub_nest_to_tvb_address self) /\
  __interscalehub_tvb_to_nest_address self' =
    (if has_direction hub "NEST_TO_TVB" then __interscalehub_tvb_to_nest_address self
     else if has_direction hub "TVB_TO_NEST"
          then match py_get hub "MPI_CONNECTION_INFO" with Ok a => Some a | Raise _ => None end
          else __interscalehub_tvb_to_nest_address self).
Proof.
  intros H. unfold init_port_name, bind, call, lift, ret in H. unfold has_direction.
  destruct hub; cbn [py_get] in H |- *;
    repeat (case_match; simplify_eq); repeat split; try reflexivity; congruence.
Qed.

Lemma init_port_names_loop_cons env self hub rest w :
  init_port_names_loop env self (hub :: rest) w =
  bind (init_port_name env self hub) (fun self => init_port_names_loop env self rest) w.
Proof. reflexivity. Qed.

Lemma init_port_names_loop_keeps env direction addresses :
  forall self w self' w',
    init_port_names_loop env self addresses w = (Ok self', w') ->
    List.forallb (fun hub => negb (has_direction hub direction)) addresses = true ->
    (direction = "NEST_TO_TVB" ->
     __interscalehub_nest_to_tvb_address self' = __interscalehub_nest_to_tvb_address self) /\
    (direction = "TVB_TO_NEST" ->
     __interscalehub_tvb_to_nest_address self' = __interscalehub_tvb_to_nest_address self).
Proof.
  induction addresses as [|hub rest IH]; intros self w self' w' H Hno.
  - injection H as <- <-. split; reflexivity.
  - rewrite init_port_names_loop_cons in H. unfold bind in H.
    destruct (init_port_name env self hub w) as [[self1|e] w1] eqn:H1; [|discriminate].
    cbn [List.forallb] in Hno. apply andb_prop in Hno as [Hhub Hrest].
    apply negb_true_iff in Hhub.
    destruct (init_port_name_addresses _ _ _ _ _ _ H1) as (_ & Hn & Ht).
    destruct (IH _ _ _ _ H Hrest) as [IHn IHt].
    split; intros ->.
    + rewrite (IHn eq_refl), Hn, Hhub. reflexivity.
    + rewrite (IHt eq_refl), Ht, Hhub.
      destruct (has_direction hub "NEST_TO_TVB"); reflexivity.
Qed.

Lemma has_direction_exclusive hub :
  has_direction hub "TVB_TO_NEST" = true -> has_direction hub "NEST_TO_TVB" = false.
Proof.
  unfold has_direction. destruct (py_get hub "DATA_EXCHANGE_DIRECTION") as [d|e]; [|discriminate].
  destruct d; cbn [py_eq_str]; try discriminate.
  intros H. apply String.eqb_eq in H. subst s. reflexivity.
Qed.

Lemma init_port_names_loop_of env self addresses w self' w' :
  init_port_names env self (PList addresses) w = (Ok self', w') ->
  exists w0, init_port_names_loop env self addresses w0 = (Ok self', w').
Proof.
  unfold init_port_names, bind at 1. intros H.
  destruct (call env (CExt "logger.debug") w) as [[[]|e] w0]; [|discriminate].
  cbv beta in H. cbn [py_iter] in H. rewrite bind_lift_ok in H. eauto.
Qed.

(** X1.  __init_port_names: the last endpoint of a direction wins.  After the
    loop has run over a list in which [hub] is the last endpoint whose
    DATA_EXCHANGE_DIRECTION is NEST_TO_TVB (TVB_TO_NEST), the address attribute
    of that direction is [hub.get("MPI_CONNECTION_INFO")]: the value of the key,
    or None when the key is missing. *)
Theorem init_port_names_last_endpoint_wins env self before hub after direction w self' w' :
  init_port_names env self (PList (before ++ hub :: after)) w = (Ok self', w') ->
  has_direction hub direction = true ->
  List.forallb (fun later => negb (has_direction later direction)) after = true ->
  exists address,
    py_get hub "MPI_CONNECTION_INFO" = Ok address /\
    (direction = "NEST_TO_TVB" -> __interscalehub_nest_to_tvb_address self' = Some address) /\
    (direction = "TVB_TO_NEST" -> __interscalehub_tvb_to_nest_address self' = Some address).
Proof.
  intros H Hd Hafter. apply init_port_names_loop_of in H as [w0 H]. clear w.
  revert self w0 H.
  induction before as [|x before IH]; intros self w H; cbn [app] in H;
    rewrite init_port_names_loop_cons in H; unfold bind in H.
  - destruct (init_port_name env self hub w) as [[self1|e] w1] eqn:H1; [|discriminate].
    destruct (init_port_name_addresses _ _ _ _ _ _ H1) as (Hdict & Hn & Ht).
    destruct (init_port_names_loop_keeps _ _ _ _ _ _ _ H Hafter) as [Kn Kt].
    assert (exists address, py_get hub "MPI_CONNECTION_INFO" = Ok address) as [address Ha].
    { destruct hub; try discriminate Hdict. cbn [py_get].
      destruct (List.find _ entries); eauto. }
    rewrite Ha in Hn, Ht.
    exists address. split; [exact Ha|]. split; intros ->.
    + rewrite (Kn eq_refl), Hn, Hd. reflexivity.
    + rewrite (Kt eq_refl), Ht, (has_direction_exclusive _ Hd), Hd. reflexivity.
  - destruct (init_port_name env self x w) as [[self1|e] w1] eqn:H1; [|discriminate].
    exact (IH _ _ H).
Qed.

(** X2.  __init_port_names: an attribute whose direction no endpoint of the
    list has is left as it was; on a new adapter it stays unset. *)
Theorem init_port_names_without_endpoint env self addresses direction w self' w' :
  init_port_names env self (PList addresses) w = (Ok self', w') ->
  List.forallb (fun hub => negb (has_direction hub direction)) addresses = true ->
  (direction = "NEST_TO_TVB" ->
   __interscalehub_nest_to_tvb_address self' = __interscalehub_nest_to_tvb_address self) /\
  (direction = "TVB_TO_NEST" ->
   __interscalehub_tvb_to_nest_address self' = __interscalehub_tvb_to_nest_address self).
Proof.
  intros H Hno. apply init_port_names_loop_of in H as [w0 H].
  exact (init_port_names_loop_keeps _ _ _ _ _ _ _ H Hno).
Qed.

Lemma init_port_name_dict env self hub w :
  returns_normally env -> is_dict hub = true ->
  exists self' w', init_port_name env self hub w = (Ok self', w').
Proof.
  intros Hn Hd. destruct hub; try discriminate Hd.
  unfold init_port_name. normal_step Hn. cbn [py_get].
  destruct (List.find _ entries) as [kv|]; normal_step Hn;
    destruct (List.find _ entries) as [kv'|]; repeat normal_step Hn;
    repeat (case_match; repeat normal_step Hn); eauto.
Qed.

Lemma init_port_name_not_dict env self hub w :
  returns_normally env -> is_dict hub = false ->
  init_port_name env self hub w =
  (Raise (AttributeError "get"), record_call (CExt "logger.debug") w).
Proof.
  intros Hn Hd. unfold init_port_name. normal_step Hn.
  destruct hub; try discriminate Hd; reflexivity.
Qed.

Lemma init_port_names_loop_dicts env addresses :
  returns_normally env ->
  forall self w,
    (List.forallb is_dict addresses = true ->
     exists self' w', init_port_names_loop env self addresses w = (Ok self', w')) /\
    (List.forallb is_dict addresses = false ->
     exists w', init_port_names_loop env self addresses w = (Raise (AttributeError "get"), w')).
Proof.
  intros Hn. induction addresses as [|hub rest IH]; intros self w.
  - split; [eauto|discriminate].
  - rewrite init_port_names_loop_cons. cbn [List.forallb]. unfold bind.
    destruct (is_dict hub) eqn:Hd.
    + destruct (init_port_name_dict env self hub w Hn Hd) as (self1 & w1 & ->).
      cbn [andb]. apply IH.
    + rewrite (init_port_name_not_dict env self hub w Hn Hd).
      split; [discriminate|eauto].
Qed.

(** X3.  __init_port_names needs endpoints with a get method.  When the
    external calls return, it completes on a list of dictionaries, and on a
    list with another kind of element it raises AttributeError for get at the
    first such element. *)
Theorem init_port_names_needs_dicts env self addresses w :
  returns_normally env ->
  (List.forallb is_dict addresses = true ->
   exists self' w', init_port_names env self (PList addresses) w = (Ok self', w')) /\
  (List.forallb is_dict addresses = false ->
   exists w', init_port_names env self (PList addresses) w =
              (Raise (AttributeError "get"), w')).
Proof.
  intros Hn. unfold init_port_names. normal_step Hn. cbn [py_iter]. normal_step Hn.
  apply init_port_names_loop_dicts, Hn.
Qed.

Lemma init_port_names_returns env self addresses w :
  returns_normally env ->
  List.forallb is_dict addresses = true ->
  exists self' w',
    init_port_names env self (PList addresses) w = (Ok self', w') /\
    (forall direction,
       List.forallb (fun hub => negb (has_direction hub direction)) addresses = true ->
       (direction = "NEST_TO_TVB" ->
        __interscalehub_nest_to_tvb_address self' = __interscalehub_nest_to_tvb_address self) /\
       (direction = "TVB_TO_NEST" ->
        __interscalehub_tvb_to_nest_address self' = __interscalehub_tvb_to_nest_address self)).
Proof.
  intros Hn Hd. unfold init_port_names. normal_step Hn. cbn [py_iter]. normal_step Hn.
  destruct (proj1 (init_port_names_loop_dicts env addresses Hn self
                     (record_call (CExt "logger.debug") w)) Hd) as (self' & w' & H).
  exists self', w'. split; [exact H|]. intros direction Hno.
  exact (init_port_names_loop_keeps _ _ _ _ _ _ _ H Hno).
Qed.

(** ** tvb_adapter.py: the three steering commands *)

Lemma configure_returns env w :
  returns_normally env ->
  configure env w = (Ok (PInst "CoSimulator" 0), record_calls configure_calls w).
Proof. intros Hn. unfold configure. repeat normal_step Hn. reflexivity. Qed.

Lemma execute_init_command_stops env self w :
  returns_normally env ->
  __interscalehub_nest_to_tvb_address self = None \/
  __interscalehub_tvb_to_nest_address self = None ->
  execute_init_command env self w =
  (Raise (AttributeError
            (match __interscalehub_nest_to_tvb_address self with
             | None => "_TVBAdapter__interscalehub_nest_to_tvb_address"
             | Some _ => "_TVBAdapter__interscalehub_tvb_to_nest_address"
             end)),
   record_calls (CExt "logger.debug" :: configure_calls ++ [CExt "simulator.simulation_length"])
     w).
Proof.
  intros Hn Hmiss. unfold execute_init_command. normal_step Hn.
  rewrite (bind_ok _ _ _ _ _ (configure_returns env _ Hn)). normal_step Hn.
  destruct (__interscalehub_nest_to_tvb_address self) as [a|];
    [destruct (__interscalehub_tvb_to_nest_address self) as [b|];
     [destruct Hmiss; discriminate|]|];
    cbn [read_attribute]; repeat normal_step Hn; reflexivity.
Qed.

(** X4.  execute_init_command on an adapter with an endpoint address unset.
    When the external calls return, the simulator is configured first and then
    reading the missing attribute raises AttributeError, for the NEST_TO_TVB
    address when that is unset and else for the TVB_TO_NEST address; the MPI
    wrapper is neither constructed nor initialised. *)
Theorem execute_init_command_missing_endpoint env self w :
  returns_normally env ->
  __interscalehub_nest_to_tvb_address self = None \/
  __interscalehub_tvb_to_nest_address self = None ->
  exists w',
    execute_init_command env self w =
    (Raise (AttributeError
              (match __interscalehub_nest_to_tvb_address self with
               | None => "_TVBAdapter__interscalehub_nest_to_tvb_address"
               | Some _ => "_TVBAdapter__interscalehub_tvb_to_nest_address"
               end)), w') /\
    In (CExt "simulator.configure") (new_calls w w') /\
    (forall a b, ~ In (CTVBMpiWrapper a b) (new_calls w w')) /\
    ~ In CInitMpi (new_calls w w').
Proof.
  intros Hn Hmiss. eexists. split; [exact (execute_init_command_stops env self w Hn Hmiss)|].
  rewrite new_calls_record_calls. cbn [app In configure_calls].
  repeat split; try tauto; try (intros a b); intros H; intuition discriminate.
Qed.

(** X5.  execute_init_command on an adapter with both endpoint addresses.
    When the external calls return, it configures the simulator, sets the
    simulation length, constructs the MPI wrapper with the two addresses,
    initialises MPI and returns time_synch; the adapter then holds the
    simulator and the wrapper, and nothing else of it has changed. *)
Theorem execute_init_command_connects env self nest_to_tvb tvb_to_nest w :
  returns_normally env ->
  __interscalehub_nest_to_tvb_address self = Some nest_to_tvb ->
  __interscalehub_tvb_to_nest_address self = Some tvb_to_nest ->
  exists w',
    execute_init_command env self w =
    (Ok (set_simulator_and_wrapper self (PInst "CoSimulator" 0) (PInst "TVBMpiWrapper" 0),
         time_synch (__parameters self)), w') /\
    new_calls w w' =
      CExt "logger.debug" :: configure_calls ++
      [CExt "simulator.simulation_length"; CTVBMpiWrapper nest_to_tvb tvb_to_nest; CInitMpi;
       CExt "logger.debug"].
Proof.
  intros Hn Ha Hb. unfold execute_init_command. normal_step Hn.
  rewrite (bind_ok _ _ _ _ _ (configure_returns env _ Hn)). normal_step Hn.
  rewrite Ha, Hb. cbn [read_attribute]. repeat normal_step Hn.
  eexists; split; [reflexivity|].
  apply new_calls_app.
  rewrite !trace_record_call, trace_record_calls, trace_record_call, <- !app_assoc.
  reflexivity.
Qed.

Lemma TVBAdapter_init_wrapper env cm ls addresses sci :
  returns (fun self => __tvb_mpi_wrapper self = PNone /\ __simulator_tvb self = PNone)
    (TVBAdapter_init env cm ls addresses sci).
Proof.
  assert (Hname : forall self hub,
            returns (fun self' => __tvb_mpi_wrapper self' = __tvb_mpi_wrapper self /\
                                  __simulator_tvb self' = __simulator_tvb self)
              (init_port_name env self hub)).
  { intros self hub. unfold init_port_name. repeat returns_step; split; reflexivity. }
  assert (Hloop : forall l self,
            returns (fun self' => __tvb_mpi_wrapper self' = __tvb_mpi_wrapper self /\
                                  __simulator_tvb self' = __simulator_tvb self)
              (init_port_names_loop env self l)).
  { induction l as [|hub rest IH]; intros self; cbn [init_port_names_loop].
    - apply returns_ret. split; reflexivity.
    - eapply returns_bind; [apply Hname|].
      intros self1 [H1 H2] w self' w' H. rewrite <- H1, <- H2. exact (IH self1 _ _ _ H). }
  unfold TVBAdapter_init, init_port_names. do 4 returns_step.
  eapply returns_bind.
  - do 2 returns_step. apply Hloop.
  - intros self [H1 H2]. cbn in H1, H2. repeat returns_step. split; assumption.
Qed.

(** X6.  START before INIT: on an adapter as __init__ leaves it, the MPI
    wrapper is still None and execute_start_command raises AttributeError
    after its first log call, without running a simulation. *)
Theorem execute_start_command_before_init env cm ls addresses sci w0 self w :
  TVBAdapter_init env cm ls addresses sci w0 = (Ok self, w) ->
  fails env (trace w) (CExt "logger.debug") = None ->
  execute_start_command env self w =
  (Raise (AttributeError "run_simulation_and_data_exchange"),
   record_call (CExt "logger.debug") w).
Proof.
  intros Hinit Hlog.
  destruct (TVBAdapter_init_wrapper _ _ _ _ _ _ _ _ Hinit) as [Hw _].
  unfold execute_start_command. rewrite (bind_call_ok _ _ _ _ Hlog), Hw. reflexivity.
Qed.

Lemma execute_start_command_returns env self x w :
  returns_normally env ->
  __tvb_mpi_wrapper self <> PNone ->
  py_unpack1 (simulation_result env) = Ok x ->
  execute_start_command env self w =
  (Ok x, record_calls [CExt "logger.debug"; CRunSimulation; CExt "logger.debug"] w).
Proof.
  intros Hn Hw Hu. unfold execute_start_command. normal_step Hn.
  assert (Hok : match __tvb_mpi_wrapper self with
                | PNone => Raise (AttributeError "run_simulation_and_data_exchange")
                | _ => Ok tt
                end = Ok tt) by (destruct (__tvb_mpi_wrapper self); congruence).
  rewrite Hok. repeat normal_step Hn. rewrite Hu. repeat normal_step Hn. reflexivity.
Qed.

(** X7.  execute_start_command after INIT.  When the external calls return
    and the wrapper is set, the simulation is run once; a result that is a
    tuple or list of exactly one element is unpacked and its element returned
    after the second log call, and one of any other length raises ValueError
    with the simulation already run. *)
Theorem execute_start_command_unpacks env self items w :
  returns_normally env ->
  __tvb_mpi_wrapper self <> PNone ->
  simulation_result env = PTuple items \/ simulation_result env = PList items ->
  (forall x, items = [x] ->
     exists w', execute_start_command env self w = (Ok x, w') /\
                new_calls w w' = [CExt "logger.debug"; CRunSimulation; CExt "logger.debug"]) /\
  (List.length items <> 1%nat ->
     exists w', execute_start_command env self w = (Raise ValueError, w') /\
                new_calls w w' = [CExt "logger.debug"; CRunSimulation]).
Proof.
  intros Hn Hw Hres.
  assert (Hu : py_unpack1 (simulation_result env) =
               match items with [x] => Ok x | _ => Raise ValueError end).
  { destruct Hres as [-> | ->]; reflexivity. }
  split.
  - intros x ->. eexists.
    split; [exact (execute_start_command_returns env self x w Hn Hw Hu)|].
    apply new_calls_record_calls.
  - intros Hlen. unfold execute_start_command. normal_step Hn.
    assert (Hok : match __tvb_mpi_wrapper self with
                  | PNone => Raise (AttributeError "run_simulation_and_data_exchange")
                  | _ => Ok tt
                  end = Ok tt) by (destruct (__tvb_mpi_wrapper self); congruence).
    rewrite Hok. repeat normal_step Hn. rewrite Hu.
    destruct items as [|x [|y rest]]; [|contradiction Hlen; reflexivity|];
      normal_step Hn; (eexists; split; [reflexivity|]);
      apply new_calls_app; rewrite !trace_record_call, <- !app_assoc; reflexivity.
Qed.



(** ** interscalehub_adapter.py: failures, order and exit status *)

(** X9.  A direction that int() rejects.  run_wrapper asks the configuration
    manager for the results directory first; when that call returns, the
    exception of int(direction), ValueError for a string that is no decimal
    number, leaves run_wrapper before any directory is set up and before any
    manager, monitor or hub call. *)
Theorem run_wrapper_direction_not_a_number env direction cm ls mon sci e w :
  py_int direction = Raise e ->
  fails env (trace w) (CGetDirectory cm) = None ->
  run_wrapper env direction cm ls mon sci w = (Raise e, record_call (CGetDirectory cm) w) /\
  (forall s, direction = DStr s -> e = ValueError).
Proof.
  intros Hd Hf. split.
  - unfold run_wrapper, run_wrapper_select, bind, call, lift. rewrite Hf, Hd. reflexivity.
  - intros s ->. cbn [py_int] in Hd. unfold int_of_str in Hd.
    repeat case_match; congruence.
Qed.

(** X10.  What precedes the manager.  In every execution of run_wrapper the
    result directories are set up only for the NEST_TO_TVB direction, with the
    path get_directory returned, and time.sleep is called only for the
    TVB_TO_NEST direction, for one second; and no manager is constructed
    before that call. *)
Theorem run_wrapper_setup_before_manager env direction cm ls mon sci code w r w' :
  py_int direction = Ok code ->
  run_wrapper env direction cm ls mon sci w = (r, w') ->
  (forall p, In (CSetupResultDirectories p) (new_calls w w') ->
     code = DATA_EXCHANGE_DIRECTION.NEST_TO_TVB /\ p = simulation_results_dir env) /\
  (forall s, In (CSleep s) (new_calls w w') ->
     code = DATA_EXCHANGE_DIRECTION.TVB_TO_NEST /\ s = 1) /\
  preceded_by is_setup_or_sleep is_manager_call (new_calls w w') = true.
Proof.
  intros Hd H. run_all H; trace_norm; cbn [In].
  all: repeat split; try reflexivity; intros; intuition (try discriminate; congruence).
Qed.

(** X11.  No cleanup after a failure.  run_wrapper has no handler around the
    hub: when hub.start() raises, run_wrapper ends with an exception and
    neither hub.stop() nor stop_monitoring() is called; when hub.stop() raises,
    stop_monitoring() is not called. *)
Theorem run_wrapper_no_cleanup env direction cm ls mon sci w r w' :
  run_wrapper env direction cm ls mon sci w = (r, w') ->
  ((forall history hub, fails env history (CHubStart hub) <> None) ->
   (exists e, r = Raise e) /\
   List.filter is_hub_stop (new_calls w w') = [] /\
   List.filter is_stop_monitoring (new_calls w w') = []) /\
  ((forall history hub, fails env history (CHubStop hub) <> None) ->
   (exists e, r = Raise e) /\
   List.filter is_stop_monitoring (new_calls w w') = []).
Proof.
  intros H. split; intros Hf; run_all H;
    try match goal with
        | F : fails _ _ (CHubStart _) = None |- _ => destruct (Hf _ _ F)
        | F : fails _ _ (CHubStop _) = None |- _ => destruct (Hf _ _ F)
        end;
    trace_norm; repeat split; eauto.
Qed.

Lemma run_wrapper_outcome env direction cm ls mon sci w r w' :
  run_wrapper env direction cm ls mon sci w = (r, w') ->
  match r with
  | Ok v => v = PNone /\
            exists hub, In (CHubStart hub) (new_calls w w') /\ In (CHubStop hub) (new_calls w w')
  | Raise e => ordinary e
  end.
Proof.
  intros H. run_all H; trace_norm; try exact I.
  all: try (split; [reflexivity|]; eexists; cbn [In]; split; eauto 10).
  all: match goal with
       | E : py_int ?d = Raise ?e |- ordinary ?e =>
           destruct d; cbn [py_int] in E; [unfold int_of_str in E; repeat case_match|];
           simplify_eq; exact I
       end.
Qed.

Ltac stopped_early H :=
  injection H as <- <-; left; split;
  [ apply new_calls_app; rewrite ?trace_assign_globals; symmetry; apply app_nil_r
  | eexists; split; [reflexivity|]; first [exact I | ordinary_goal] ].

Lemma interscalehub_main_cases env argv w r w' :
  interscalehub_main env argv w = (r, w') ->
  (new_calls w w' = [] /\ exists e, r = Raise e /\ ordinary e) \/
  (exists prog d a2 a3 sci a5 rest cm ls flag w0 r1,
     argv = prog :: d :: a2 :: a3 :: sci :: a5 :: rest /\
     (loads_b64 env a2 = Ok cm /\ loads_b64 env a3 = Ok ls /\ loads_b64 env a5 = Ok flag) /\
     (type_name cm = "ConfigurationsManager" /\ type_name ls = "dict" /\
      type_name flag = "bool") /\
     trace w0 = trace w /\
     run_wrapper env (DStr d) cm ls (py_truthy flag) sci w0 = (r1, w') /\
     r = match r1 with Ok v => Raise (SystemExit v) | Raise e => Raise e end).
Proof.
  intros H. unfold interscalehub_main, argv_get in H.
  destruct argv as [|prog [|d argv]]; cbn [nth_error] in H;
    try (main_step_in H; stopped_early H).
  repeat main_step_in H.
  destruct argv as [|a2 argv]; cbn [nth_error] in H; [main_step_in H; stopped_early H|].
  main_step_in H.
  destruct (loads_b64 env a2) as [cm|e] eqn:H2; main_step_in H; [|stopped_early H].
  main_step_in H.
  destruct argv as [|a3 argv]; cbn [nth_error] in H; [main_step_in H; stopped_early H|].
  main_step_in H.
  destruct (loads_b64 env a3) as [ls|e] eqn:H3; main_step_in H; [|stopped_early H].
  main_step_in H.
  destruct argv as [|sci argv]; cbn [nth_error] in H; [main_step_in H; stopped_early H|].
  repeat main_step_in H.
  destruct argv as [|a5 rest]; cbn [nth_error] in H; [main_step_in H; stopped_early H|].
  main_step_in H.
  destruct (loads_b64 env a5) as [flag|e] eqn:H5; main_step_in H; [|stopped_early H].
  main_step_in H.
  destruct (decide (type_name cm = "ConfigurationsManager")) as [T1|T1];
    [rewrite (check_integrity_ok _ _ T1) in H
    |rewrite (check_integrity_raise _ _ T1) in H]; main_step_in H; [|stopped_early H].
  destruct (decide (type_name ls = "dict")) as [T2|T2];
    [rewrite (check_integrity_ok _ _ T2) in H
    |rewrite (check_integrity_raise _ _ T2) in H]; main_step_in H; [|stopped_early H].
  destruct (decide (type_name flag = "bool")) as [T3|T3];
    [rewrite (check_integrity_ok _ _ T3) in H
    |rewrite (check_integrity_raise _ _ T3) in H]; main_step_in H; [|stopped_early H].
  right. unfold bind in H.
  destruct (run_wrapper _ _ _ _ _ _ _) as [r1 w1] eqn:Hr.
  exists prog, d, a2, a3, sci, a5, rest, cm, ls, flag. eexists. exists r1.
  split; [reflexivity|]. split; [auto|]. split; [auto|].
  split; [|split; [|destruct r1; unfold sys_exit, raise in H; injection H as <- <-;
                     reflexivity]].
  2: { destruct r1; unfold sys_exit, raise in H; injection H as <- <-; exact Hr. }
  rewrite !trace_assign_globals. reflexivity.
Qed.

(** X12.  The hub adapter calls nothing before its arguments are accepted.
    Whenever a run of the main program makes any call into the configuration
    manager, the hub or the monitor, argv had at least six entries, argv[2],
    argv[3] and argv[5] were base64-decoded and unpickled without error, and
    the three objects passed the type checks. *)
Theorem interscalehub_main_calls_need_valid_arguments env argv w r w' :
  interscalehub_main env argv w = (r, w') ->
  new_calls w w' <> [] ->
  exists prog d a2 a3 sci a5 rest cm ls flag,
    argv = prog :: d :: a2 :: a3 :: sci :: a5 :: rest /\
    (loads_b64 env a2 = Ok cm /\ loads_b64 env a3 = Ok ls /\ loads_b64 env a5 = Ok flag) /\
    (type_name cm = "ConfigurationsManager" /\ type_name ls = "dict" /\
     type_name flag = "bool").
Proof.
  intros H Hcalls.
  destruct (interscalehub_main_cases _ _ _ _ _ H) as [[Hnone _]|Hrun]; [contradiction|].
  destruct Hrun as (prog & d & a2 & a3 & sci & a5 & rest & cm & ls & flag & w0 & r1 & Hrest).
  exists prog, d, a2, a3, sci, a5, rest, cm, ls, flag. tauto.
Qed.

(** X13.  The exit status of the hub adapter.  The main program never runs to
    its end without sys.exit: it ends with status 0 or 1, and with 0 only
    through sys.exit(None) after run_wrapper has returned, in which case a hub
    was started and stopped. *)
Theorem interscalehub_main_exit_status env argv w r w' :
  interscalehub_main env argv w = (r, w') ->
  (exists e, r = Raise e) /\
  (exit_status r = 0 \/ exit_status r = 1) /\
  (exit_status r = 0 ->
   r = Raise (SystemExit PNone) /\
   exists hub, In (CHubStart hub) (new_calls w w') /\ In (CHubStop hub) (new_calls w w')).
Proof.
  intros H.
  destruct (interscalehub_main_cases _ _ _ _ _ H) as [[_ (e & -> & He)]|Hrun].
  - rewrite (ordinary_exit_status e He). split; [eauto|]. split; [auto|discriminate].
  - destruct Hrun as (prog & d & a2 & a3 & sci & a5 & rest & cm & ls & flag & w0 & r1 &
                      _ & _ & _ & Ht & Hr & ->).
    pose proof (run_wrapper_outcome _ _ _ _ _ _ _ _ _ Hr) as Ho.
    rewrite (new_calls_same_trace _ _ _ Ht) in Ho.
    destruct r1 as [v|e].
    + destruct Ho as [-> Hhub]. split; [eauto|]. split; [left; reflexivity|]. auto.
    + rewrite (ordinary_exit_status e Ho). split; [eauto|]. split; [auto|discriminate].
Qed.

(** ** tvb_adapter.py: the main program, from argv to the exit *)








Lemma tvb_main_init_cases env argv w r w1 :
  tvb_main_init env argv w = (r, w1) ->
  (new_calls w w1 = [] /\ exists e, r = Raise e) \/
  (exists prog a1 a2 sci a4 rest cm ls addresses,
     argv = prog :: a1 :: a2 :: sci :: a4 :: rest /\
     (loads_b64 env a1 = Ok cm /\ loads_b64 env a2 = Ok ls /\
      loads_b64 env a4 = Ok addresses) /\
     (type_name cm = "ConfigurationsManager" /\ type_name ls = "dict" /\
      type_name addresses = "list")).
Proof.
  assert (Hstop : forall (e : Exn) (w0 : World),
            trace w0 = trace w ->
            (Raise e : Result TVBAdapter, w0) = (r, w1) ->
            new_calls w w1 = [] /\ exists e, r = Raise e).
  { intros e w0 Ht [= <- <-]. split; [|eauto].
    apply new_calls_app. rewrite Ht. symmetry; apply app_nil_r. }
  intros H. unfold tvb_main_init, argv_get in H.
  destruct argv as [|prog [|a1 argv]]; cbn [nth_error] in H;
    try (main_step_in H; left; (eapply Hstop; [|exact H]; reflexivity)).
  main_step_in H.
  destruct (loads_b64 env a1) as [cm|e] eqn:H1; main_step_in H;
    [|left; (eapply Hstop; [|exact H]; reflexivity)].
  main_step_in H.
  destruct argv as [|a2 argv]; cbn [nth_error] in H;
    [main_step_in H; left; (eapply Hstop; [|exact H]; reflexivity)|].
  main_step_in H.
  destruct (loads_b64 env a2) as [ls|e] eqn:H2; main_step_in H;
    [|left; (eapply Hstop; [|exact H]; reflexivity)].
  main_step_in H.
  destruct argv as [|sci argv]; cbn [nth_error] in H;
    [main_step_in H; left; (eapply Hstop; [|exact H]; reflexivity)|].
  repeat main_step_in H.
  destruct argv as [|a4 rest]; cbn [nth_error] in H;
    [main_step_in H; left; (eapply Hstop; [|exact H]; reflexivity)|].
  main_step_in H.
  destruct (loads_b64 env a4) as [addresses|e] eqn:H4; main_step_in H;
    [|left; (eapply Hstop; [|exact H]; reflexivity)].
  main_step_in H.
  destruct (decide (type_name cm = "ConfigurationsManager")) as [T1|T1];
    [rewrite (check_integrity_ok _ _ T1) in H
    |rewrite (check_integrity_raise _ _ T1) in H]; main_step_in H;
    [|left; (eapply Hstop; [|exact H]; reflexivity)].
  destruct (decide (type_name ls = "dict")) as [T2|T2];
    [rewrite (check_integrity_ok _ _ T2) in H
    |rewrite (check_integrity_raise _ _ T2) in H]; main_step_in H;
    [|left; (eapply Hstop; [|exact H]; reflexivity)].
  destruct (decide (type_name addresses = "list")) as [T3|T3];
    [rewrite (check_integrity_ok _ _ T3) in H
    |rewrite (check_integrity_raise _ _ T3) in H]; main_step_in H;
    [|left; (eapply Hstop; [|exact H]; reflexivity)].
  right. exists prog, a1, a2, sci, a4, rest, cm, ls, addresses. auto 10.
Qed.

(** X16.  The TVB adapter calls nothing and reads nothing before its
    arguments are accepted.  Whenever a run of the main program makes any call
    into the simulator or reads stdin, argv had at least five entries, argv[1],
    argv[2] and argv[4] were base64-decoded and unpickled without error, and
    the three objects passed the type checks. *)
Theorem tvb_main_calls_need_valid_arguments env argv w r w' :
  tvb_main env argv w = (r, w') ->
  new_calls w w' <> [] ->
  exists prog a1 a2 sci a4 rest cm ls addresses,
    argv = prog :: a1 :: a2 :: sci :: a4 :: rest /\
    (loads_b64 env a1 = Ok cm /\ loads_b64 env a2 = Ok ls /\
     loads_b64 env a4 = Ok addresses) /\
    (type_name cm = "ConfigurationsManager" /\ type_name ls = "dict" /\
     type_name addresses = "list").
Proof.
  intros H Hcalls.
  destruct (tvb_main_split _ _ _ _ _ H) as [(e & Hi & ->)|(self & w1 & Hi & Hs)];
    destruct (tvb_main_init_cases _ _ _ _ _ Hi) as [[Hnone [e' He']]|Hvalid];
    try assumption; [contradiction|discriminate].
Qed.

Lemma TVBAdapter_init_returns env cm ls addresses sci w :
  returns_normally env ->
  List.forallb is_dict addresses = true ->
  exists self w',
    TVBAdapter_init env cm ls (PList addresses) sci w = (Ok self, w') /\
    (forall direction,
       List.forallb (fun hub => negb (has_direction hub direction)) addresses = true ->
       (direction = "NEST_TO_TVB" -> __interscalehub_nest_to_tvb_address self = None) /\
       (direction = "TVB_TO_NEST" -> __interscalehub_tvb_to_nest_address self = None)).
Proof.
  intros Hn Hd. unfold TVBAdapter_init. do 4 normal_step Hn.
  match goal with |- context [bind (init_port_names env ?s _) _ ?w0] =>
    destruct (init_port_names_returns env s addresses w0 Hn Hd) as (self & w1 & Hp & Hkeep)
  end.
  rewrite (bind_ok _ _ _ _ _ Hp). repeat normal_step Hn.
  exists self. eexists. split; [reflexivity|].
  intros direction Hno. exact (Hkeep direction Hno).
Qed.

(** X17.  An endpoint list without one of the two directions.  With accepted
    arguments, returning external calls and a list of endpoint dictionaries
    none of which has the direction NEST_TO_TVB, or none of which has
    TVB_TO_NEST, the INIT phase ends in the AttributeError of the unset
    address: nothing is reported on stdout and stdin is not read. *)
Theorem tvb_main_missing_endpoint env prog a1 a2 sci a4 rest cm ls addresses lines :
  returns_normally env ->
  loads_b64 env a1 = Ok cm ->
  loads_b64 env a2 = Ok ls ->
  loads_b64 env a4 = Ok (PList addresses) ->
  type_name cm = "ConfigurationsManager" ->
  type_name ls = "dict" ->
  List.forallb is_dict addresses = true ->
  List.forallb (fun hub => negb (has_direction hub "NEST_TO_TVB")) addresses = true \/
  List.forallb (fun hub => negb (has_direction hub "TVB_TO_NEST")) addresses = true ->
  exists name w',
    tvb_main env (prog :: a1 :: a2 :: sci :: a4 :: rest) (initial_world lines) =
      (Raise (AttributeError name), w') /\
    (name = "_TVBAdapter__interscalehub_nest_to_tvb_address" \/
     name = "_TVBAdapter__interscalehub_tvb_to_nest_address") /\
    stdout w' = [] /\ stdin w' = lines.
Proof.
  intros Hn H1 H2 H4 T1 T2 Hd Hmiss.
  assert (exists name w',
            tvb_main_init env (prog :: a1 :: a2 :: sci :: a4 :: rest) (initial_world lines) =
              (Raise (AttributeError name), w') /\
            (name = "_TVBAdapter__interscalehub_nest_to_tvb_address" \/
             name = "_TVBAdapter__interscalehub_tvb_to_nest_address"))
    as (name & w' & Hi & Hname).
  { unfold tvb_main_init, argv_get. cbn [nth_error].
    repeat first [ main_step | rewrite H1 | rewrite H2 | rewrite H4
                 | rewrite (check_integrity_ok _ _ T1) | rewrite (check_integrity_ok _ _ T2)
                 | rewrite (check_integrity_ok (PList addresses) "list" eq_refl) ].
    match goal with |- context [bind (TVBAdapter_init env cm ls _ sci) _ ?w0] =>
      destruct (TVBAdapter_init_returns env cm ls addresses sci w0 Hn Hd)
        as (self & w1 & Hi & Haddr)
    end.
    rewrite (bind_ok _ _ _ _ _ Hi). main_step.
    assert (Hnone : __interscalehub_nest_to_tvb_address self = None \/
                    __interscalehub_tvb_to_nest_address self = None).
    { destruct Hmiss as [Hm|Hm]; [left|right]; apply (Haddr _ Hm); reflexivity. }
    rewrite (bind_raise _ _ _ _ _ (execute_init_command_stops env self _ Hn Hnone)).
    eexists. eexists. split; [reflexivity|].
    destruct (__interscalehub_nest_to_tvb_address self); auto. }
  exists name, w'.
  destruct (tvb_main_init_spec _ _ _ _ _ Hi) as (Hin & _ & _ & Hout & _).
  split; [unfold tvb_main; apply (bind_raise _ _ _ _ _ Hi)|].
  split; [exact Hname|]. split; [exact Hout | exact Hin].
Qed.

(** ** The model at work *)

(** int() on the strings a direction can be given as. *)
Example int_of_str_examples :
  List.map int_of_str ["1"; " 2 "; "+0_2"; "-12"; "1__0"; "_1"; "0x1"; "two"] =
  [Ok 1; Ok 2; Ok 2; Ok (-12); Raise ValueError; Raise ValueError; Raise ValueError;
   Raise ValueError].
Proof. reflexivity. Qed.

(** When hub.start() raises, the exception leaves run_wrapper and neither
    hub.stop() nor stop_monitoring() is called. *)
Example hub_start_raises :
  let run := run_wrapper (Demo.env_failing is_hub_start) (DStr "1") Demo.cm
               Demo.log_settings true "params.xml" (initial_world []) in
  fst run = Raise (ExternalError "RuntimeError") /\
  List.filter (fun c => is_hub_start c || is_hub_stop c || is_monitor_call c)
    (trace (snd run)) =
  [CResourceMonitorAdapter Demo.cm Demo.log_settings 4242 "InterscaleHub_NEST_TO_TVB";
   CStartMonitoring; CHubStart (PInst "NestToTvbManager" 0)].
Proof. vm_compute. split; reflexivity. Qed.

(** An endpoint list without the TVB_TO_NEST entry leaves the attribute of the
    adapter unset, and execute_init_command raises AttributeError. *)
Example missing_endpoint :
  let self := set_nest_to_tvb_address Demo.adapter (PStr "port-a") in
  fst (execute_init_command Demo.env self (initial_world [])) =
  Raise (AttributeError "_TVBAdapter__interscalehub_tvb_to_nest_address").
Proof. vm_compute. reflexivity. Qed.

(** * The theorems at concrete inputs *)

Lemma demo_returns_normally : returns_normally Demo.env.
Proof. intros history c. reflexivity. Defined.

Lemma run_wrapper_direction_selects_manager_witness :
  let w0 := initial_world [] in
  let run := run_wrapper Demo.env (DStr "1") Demo.cm Demo.log_settings true "params.xml" w0 in
  py_int (DStr "1") = Ok 1 /\
  List.filter is_manager_call (new_calls w0 (snd run)) =
    [CNestToTvbManager (hub_parameters "/results") Demo.cm Demo.log_settings "params.xml"].
Proof.
  intros w0 run. split; [reflexivity|].
  destruct (run_wrapper_direction_selects_manager Demo.env (DStr "1") Demo.cm
              Demo.log_settings true "params.xml" 1 w0 (fst run) (snd run)
              eq_refl (surjective_pairing _)) as [_ Hall].
  destruct (Hall demo_returns_normally) as [H1 _]. exact (H1 eq_refl).
Defined.

Lemma tvb_reports_pid_and_step_witness :
  let run := tvb_main Demo.env Demo.tvb_argv (initial_world ["START"]) in
  exit_status (fst run) = 0 /\
  stdout (snd run) = ["{'PID': 4242, 'LOCAL_MINIMUM_STEP_SIZE': 1.2}"].
Proof.
  intros run.
  assert (Hexit : exit_status (fst run) = 0) by (vm_compute; reflexivity).
  split; [exact Hexit|].
  exact (proj1 (tvb_reports_pid_and_step Demo.env Demo.tvb_argv ["START"] (fst run) (snd run)
                  (surjective_pairing _) Hexit)).
Defined.

Lemma check_integrity_guards_both_adapters_witness :
  (let run := interscalehub_main Demo.env (Demo.hub_argv "1" "bHM=") (initial_world []) in
   (exists expected, fst run = Raise (IntegrityError expected)) /\
   new_calls (initial_world []) (snd run) = []) /\
  (let run := tvb_main Demo.env Demo.tvb_argv (initial_world ["START"]) in
   exists calls,
     new_calls (initial_world ["START"]) (snd run) =
     CExt "configurations_manager.load_log_configurations" :: calls).
Proof.
  destruct (check_integrity_guards_both_adapters Demo.env) as (_ & Hhub & Htvb).
  split; intros run.
  - refine (proj1 (Hhub "interscalehub_adapter.py" "1" "Y20=" "bHM=" "params.xml" "bHM=" []
                     Demo.cm Demo.log_settings Demo.log_settings (initial_world [])
                     (fst run) (snd run) eq_refl eq_refl eq_refl (surjective_pairing _)) _).
    right; right. discriminate.
  - exact (proj2 (Htvb "tvb_adapter.py" "Y20=" "bHM=" "params.xml" "aHVicw==" []
                    Demo.cm Demo.log_settings Demo.hubs (initial_world ["START"])
                    (fst run) (snd run) eq_refl eq_refl eq_refl (surjective_pairing _))
             eq_refl eq_refl eq_refl).
Defined.

Lemma interscalehub_main_arguments_witness :
  interscalehub_main Demo.env (Demo.hub_argv "2" "b2Zm") (initial_world []) =
  bind (run_wrapper Demo.env (DStr "2") Demo.cm Demo.log_settings false "params.xml") sys_exit
    (assign_globals [("direction", PStr "2"); ("configurations_manager", Demo.cm);
                     ("log_settings", Demo.log_settings);
                     ("p_sci_params_xml_path_filename", PStr "params.xml");
                     ("is_monitoring_enabled", PBool false)] (initial_world [])).
Proof.
  exact (interscalehub_main_arguments Demo.env "interscalehub_adapter.py" "2" "Y20=" "bHM="
           "params.xml" "b2Zm" [] Demo.cm Demo.log_settings (PBool false) (initial_world [])
           eq_refl eq_refl eq_refl eq_refl eq_refl eq_refl).
Defined.

Lemma hub_started_before_stopped_witness :
  let w0 := initial_world [] in
  let run := run_wrapper Demo.env (DStr "1") Demo.cm Demo.log_settings true "params.xml" w0 in
  let selected := run_wrapper_select Demo.env (DStr "1") Demo.cm Demo.log_settings
                    "params.xml" w0 in
  preceded_by is_hub_start is_hub_stop (new_calls w0 (snd run)) = true /\
  preceded_by is_start_monitoring is_hub_start (new_calls w0 (snd run)) = true /\
  preceded_by is_hub_stop is_stop_monitoring (new_calls w0 (snd run)) = true /\
  new_calls (snd selected) (snd run) =
    [CResourceMonitorAdapter Demo.cm Demo.log_settings 4242 "InterscaleHub_NEST_TO_TVB";
     CStartMonitoring; CHubStart (PInst "NestToTvbManager" 0);
     CHubStop (PInst "NestToTvbManager" 0); CStopMonitoring].
Proof.
  intros w0 run selected.
  destruct (hub_started_before_stopped Demo.env (DStr "1") Demo.cm Demo.log_settings true
              "params.xml" w0 (fst run) (snd run) (surjective_pairing _)) as (H1 & H2 & H3).
  destruct (H2 eq_refl) as [H2a H2b].
  assert (Hsel : selected = (Ok (Some (PInst "NestToTvbManager" 0, "NEST_TO_TVB")),
                             snd selected)) by (vm_compute; reflexivity).
  destruct (H3 demo_returns_normally _ _ _ Hsel) as [_ H4].
  repeat split; assumption.
Defined.

Lemma tvb_reads_stdin_once_witness :
  let w0 := initial_world ["END"; "ignored"] in
  let run := tvb_main Demo.env Demo.tvb_argv w0 in
  inputs (snd run) = 1%nat /\ stdin (snd run) = ["ignored"].
Proof.
  intros w0 run.
  destruct (tvb_main_init Demo.env Demo.tvb_argv w0) as [[self|e] w1] eqn:Hinit.
  - exact (tvb_reads_stdin_once Demo.env Demo.tvb_argv ["END"; "ignored"] self w1
             (fst run) (snd run) Hinit (surjective_pairing _)).
  - exfalso. revert Hinit. vm_compute. discriminate.
Defined.

Lemma run_wrapper_unknown_direction_witness :
  let w0 := initial_world [] in
  let run := run_wrapper Demo.env (DStr "3") Demo.cm Demo.log_settings false "params.xml" w0 in
  fst run = Raise (UnboundLocalError "hub") /\ new_calls w0 (snd run) = [CGetDirectory Demo.cm].
Proof.
  intros w0 run.
  assert (H1 : 3 <> DATA_EXCHANGE_DIRECTION.NEST_TO_TVB) by discriminate.
  assert (H2 : 3 <> DATA_EXCHANGE_DIRECTION.TVB_TO_NEST) by discriminate.
  destruct (run_wrapper_unknown_direction Demo.env (DStr "3") Demo.cm Demo.log_settings false
              "params.xml" 3 w0 (fst run) (snd run) eq_refl H1 H2 eq_refl
              (surjective_pairing _)) as (_ & Hr & _ & Hc).
  split; assumption.
Defined.

Lemma execute_end_command_needs_global_witness :
  let w0 := initial_world [] in
  let run := execute_end_command Demo.env Demo.adapter Demo.raw w0 in
  fst run = Raise (NameError "raw_results") /\
  new_calls w0 (snd run) = [CExt "logger.info"; CExt "plt.figure"].
Proof.
  intros w0 run.
  exact (proj1 (execute_end_command_needs_global Demo.env Demo.adapter Demo.raw w0
                  (fst run) (snd run) (surjective_pairing _))
           eq_refl (ex_intro _ (PArray "time") eq_refl) eq_refl eq_refl).
Defined.

Lemma run_wrapper_without_monitoring_witness :
  let w0 := initial_world [] in
  let run := run_wrapper Demo.env (DStr "2") Demo.cm Demo.log_settings false "params.xml" w0 in
  let selected := run_wrapper_select Demo.env (DStr "2") Demo.cm Demo.log_settings
                    "params.xml" w0 in
  List.filter is_monitor_call (new_calls w0 (snd run)) = [] /\
  new_calls (snd selected) (snd run) =
    [CHubStart (PInst "TvbToNestManager" 0); CHubStop (PInst "TvbToNestManager" 0)].
Proof.
  intros w0 run selected.
  destruct (run_wrapper_without_monitoring Demo.env (DStr "2") Demo.cm Demo.log_settings
              "params.xml" w0 (fst run) (snd run) (surjective_pairing _))
    as (H1 & _ & H3 & _).
  split; [exact H1|].
  assert (Hsel : selected = (Ok (Some (PInst "TvbToNestManager" 0, "TVB_TO_NEST")),
                             snd selected)) by (vm_compute; reflexivity).
  exact (proj2 (H3 _ _ _ Hsel) demo_returns_normally).
Defined.

(** ** The further properties at concrete inputs *)

Lemma init_port_names_last_endpoint_wins_witness :
  exists self' w',
    init_port_names Demo.env Demo.adapter
      (PList (Scenario.nest_only ++ [Scenario.hub "TVB_TO_NEST" "port-b"]))
      (initial_world []) = (Ok self', w') /\
    __interscalehub_nest_to_tvb_address self' = Some (PStr "port-c").
Proof.
  destruct (init_port_names Demo.env Demo.adapter
              (PList (Scenario.nest_only ++ [Scenario.hub "TVB_TO_NEST" "port-b"]))
              (initial_world [])) as [[self'|e] w'] eqn:H.
  - exists self', w'. split; [reflexivity|].
    destruct (init_port_names_last_endpoint_wins Demo.env Demo.adapter
                [Scenario.hub "NEST_TO_TVB" "port-a"] (Scenario.hub "NEST_TO_TVB" "port-c")
                [Scenario.hub "TVB_TO_NEST" "port-b"] "NEST_TO_TVB" (initial_world [])
                self' w' H eq_refl eq_refl) as (address & Ha & Hn & _).
    vm_compute in Ha. injection Ha as <-. exact (Hn eq_refl).
  - exfalso. vm_compute in H. discriminate H.
Defined.

Lemma init_port_names_without_endpoint_witness :
  exists self' w',
    init_port_names Demo.env Demo.adapter (PList Scenario.nest_only) (initial_world []) =
      (Ok self', w') /\
    __interscalehub_tvb_to_nest_address self' = None.
Proof.
  destruct (init_port_names Demo.env Demo.adapter (PList Scenario.nest_only)
              (initial_world [])) as [[self'|e] w'] eqn:H.
  - exists self', w'. split; [reflexivity|].
    exact (proj2 (init_port_names_without_endpoint Demo.env Demo.adapter Scenario.nest_only
                    "TVB_TO_NEST" (initial_world []) self' w' H eq_refl) eq_refl).
  - exfalso. vm_compute in H. discriminate H.
Defined.

Lemma init_port_names_needs_dicts_witness :
  exists w',
    init_port_names Demo.env Demo.adapter
      (PList [Scenario.hub "NEST_TO_TVB" "port-a"; PStr "port-b"]) (initial_world []) =
    (Raise (AttributeError "get"), w').
Proof.
  exact (proj2 (init_port_names_needs_dicts Demo.env Demo.adapter
                  [Scenario.hub "NEST_TO_TVB" "port-a"; PStr "port-b"] (initial_world [])
                  demo_returns_normally) eq_refl).
Defined.

Lemma execute_init_command_missing_endpoint_witness :
  exists w',
    execute_init_command Demo.env Demo.adapter (initial_world []) =
      (Raise (AttributeError "_TVBAdapter__interscalehub_nest_to_tvb_address"), w') /\
    ~ In CInitMpi (new_calls (initial_world []) w').
Proof.
  destruct (execute_init_command_missing_endpoint Demo.env Demo.adapter (initial_world [])
              demo_returns_normally (or_introl eq_refl)) as (w' & H & _ & _ & Hmpi).
  exists w'. split; [exact H | exact Hmpi].
Defined.

Lemma execute_init_command_connects_witness :
  exists w',
    execute_init_command Demo.env Scenario.connected (initial_world []) =
      (Ok (Scenario.connected, PFloat "1.2"), w') /\
    new_calls (initial_world []) w' =
      CExt "logger.debug" :: configure_calls ++
      [CExt "simulator.simulation_length"; CTVBMpiWrapper (PStr "port-a") (PStr "port-b");
       CInitMpi; CExt "logger.debug"].
Proof.
  exact (execute_init_command_connects Demo.env Scenario.connected (PStr "port-a")
           (PStr "port-b") (initial_world []) demo_returns_normally eq_refl eq_refl).
Defined.

Lemma execute_start_command_before_init_witness :
  exists self w,
    TVBAdapter_init Demo.env Demo.cm Demo.log_settings Demo.hubs "params.xml"
      (initial_world []) = (Ok self, w) /\
    execute_start_command Demo.env self w =
      (Raise (AttributeError "run_simulation_and_data_exchange"),
       record_call (CExt "logger.debug") w).
Proof.
  destruct (TVBAdapter_init Demo.env Demo.cm Demo.log_settings Demo.hubs "params.xml"
              (initial_world [])) as [[self|e] w] eqn:H.
  - exists self, w. split; [reflexivity|].
    exact (execute_start_command_before_init Demo.env Demo.cm Demo.log_settings Demo.hubs
             "params.xml" (initial_world []) self w H eq_refl).
  - exfalso. vm_compute in H. discriminate H.
Defined.

Lemma execute_start_command_unpacks_witness :
  exists w',
    execute_start_command Demo.env Scenario.connected (initial_world []) = (Ok Demo.raw, w') /\
    new_calls (initial_world []) w' =
      [CExt "logger.debug"; CRunSimulation; CExt "logger.debug"].
Proof.
  assert (Hw : __tvb_mpi_wrapper Scenario.connected <> PNone) by (intros H; discriminate H).
  exact (proj1 (execute_start_command_unpacks Demo.env Scenario.connected [Demo.raw]
                  (initial_world []) demo_returns_normally Hw (or_introl eq_refl))
           Demo.raw eq_refl).
Defined.


Lemma run_wrapper_direction_not_a_number_witness :
  run_wrapper Demo.env (DStr "NEST_TO_TVB") Demo.cm Demo.log_settings true "params.xml"
    (initial_world []) =
  (Raise ValueError, record_call (CGetDirectory Demo.cm) (initial_world [])).
Proof.
  exact (proj1 (run_wrapper_direction_not_a_number Demo.env (DStr "NEST_TO_TVB") Demo.cm
                  Demo.log_settings true "params.xml" ValueError (initial_world [])
                  eq_refl eq_refl)).
Defined.

Lemma run_wrapper_setup_before_manager_witness :
  let w0 := initial_world [] in
  let run := run_wrapper Demo.env (DStr "2") Demo.cm Demo.log_settings false "params.xml" w0 in
  (forall p, ~ In (CSetupResultDirectories p) (new_calls w0 (snd run))) /\
  preceded_by is_setup_or_sleep is_manager_call (new_calls w0 (snd run)) = true.
Proof.
  intros w0 run.
  destruct (run_wrapper_setup_before_manager Demo.env (DStr "2") Demo.cm Demo.log_settings
              false "params.xml" 2 w0 (fst run) (snd run) eq_refl (surjective_pairing _))
    as (Hs & _ & Hp).
  split; [|exact Hp].
  intros p Hin. destruct (Hs p Hin) as [Hcode _]. vm_compute in Hcode. discriminate Hcode.
Defined.

Lemma run_wrapper_no_cleanup_witness :
  let w0 := initial_world [] in
  let run := run_wrapper (Demo.env_failing is_hub_start) (DStr "1") Demo.cm
               Demo.log_settings true "params.xml" w0 in
  (exists e, fst run = Raise e) /\
  List.filter is_hub_stop (new_calls w0 (snd run)) = [] /\
  List.filter is_stop_monitoring (new_calls w0 (snd run)) = [].
Proof.
  intros w0 run.
  apply (proj1 (run_wrapper_no_cleanup (Demo.env_failing is_hub_start) (DStr "1") Demo.cm
                  Demo.log_settings true "params.xml" w0 (fst run) (snd run)
                  (surjective_pairing _))).
  intros history hub H. vm_compute in H. discriminate H.
Defined.

Lemma interscalehub_main_calls_need_valid_arguments_witness :
  exists prog d a2 a3 sci a5 rest cm ls flag,
    Demo.hub_argv "1" "b24=" = prog :: d :: a2 :: a3 :: sci :: a5 :: rest /\
    (loads_b64 Demo.env a2 = Ok cm /\ loads_b64 Demo.env a3 = Ok ls /\
     loads_b64 Demo.env a5 = Ok flag) /\
    (type_name cm = "ConfigurationsManager" /\ type_name ls = "dict" /\
     type_name flag = "bool").
Proof.
  pose (run := interscalehub_main Demo.env (Demo.hub_argv "1" "b24=") (initial_world [])).
  apply (interscalehub_main_calls_need_valid_arguments Demo.env (Demo.hub_argv "1" "b24=")
           (initial_world []) (fst run) (snd run) (surjective_pairing _)).
  vm_compute. discriminate.
Defined.

Lemma interscalehub_main_exit_status_witness :
  let w0 := initial_world [] in
  let run := interscalehub_main Demo.env (Demo.hub_argv "1" "b24=") w0 in
  fst run = Raise (SystemExit PNone) /\
  exists hub, In (CHubStart hub) (new_calls w0 (snd run)) /\
              In (CHubStop hub) (new_calls w0 (snd run)).
Proof.
  intros w0 run.
  destruct (interscalehub_main_exit_status Demo.env (Demo.hub_argv "1" "b24=") w0
              (fst run) (snd run) (surjective_pairing _)) as (_ & _ & H0).
  apply H0. vm_compute. reflexivity.
Defined.



Lemma tvb_main_calls_need_valid_arguments_witness :
  exists prog a1 a2 sci a4 rest cm ls addresses,
    Demo.tvb_argv = prog :: a1 :: a2 :: sci :: a4 :: rest /\
    (loads_b64 Demo.env a1 = Ok cm /\ loads_b64 Demo.env a2 = Ok ls /\
     loads_b64 Demo.env a4 = Ok addresses) /\
    (type_name cm = "ConfigurationsManager" /\ type_name ls = "dict" /\
     type_name addresses = "list").
Proof.
  pose (run := tvb_main Demo.env Demo.tvb_argv (initial_world ["END"])).
  apply (tvb_main_calls_need_valid_arguments Demo.env Demo.tvb_argv (initial_world ["END"])
           (fst run) (snd run) (surjective_pairing _)).
  vm_compute. discriminate.
Defined.

Lemma tvb_main_missing_endpoint_witness :
  exists name w',
    tvb_main Scenario.env Demo.tvb_argv (initial_world ["START"]) =
      (Raise (AttributeError name), w') /\
    stdout w' = [] /\ stdin w' = ["START"].
Proof.
  destruct (tvb_main_missing_endpoint Scenario.env "tvb_adapter.py" "Y20=" "bHM=" "params.xml"
              "aHVicw==" [] Demo.cm Demo.log_settings Scenario.nest_only ["START"]
              (fun _ _ => eq_refl) eq_refl eq_refl eq_refl eq_refl eq_refl eq_refl
              (or_intror eq_refl)) as (name & w' & H & _ & Hout & Hin).
  exists name, w'. repeat split; assumption.
Defined.
